(** * create_session: capability resolution and session initiation

    A shallow embedding of [src/tools/session/create-session.ts] (the
    current tool) and of the earlier copy of the same tool that takes no
    remote-server argument, together with the properties stated about them.

    JavaScript objects used as string-keyed maps are [gmap string Value];
    the ambient module state of the collaborators (device selection, session
    store) is threaded explicitly through a small state-and-exception monad,
    and every call to a side-effecting collaborator is recorded in a trace. *)

From stdpp Require Import gmap strings pretty list fin_maps.
From Stdlib Require Import Ascii String ZArith.

Local Open Scope string_scope.

(** ** Values and capability objects *)

#[local] Set Warnings "-register-all".

(** The values a capability can hold ([any] in the source): what
    [JSON.parse] and the tool arguments can deliver. *)
Inductive Value : Type :=
  | VStr (s : string)
  | VNum (n : Z)
  | VBool (b : bool)
  | VNull
  | VArr (items : list Value)
  | VObj (fields : list (string * Value)).

(** [interface Capabilities { platformName; 'appium:automationName'; ...;
    [key: string]: any }]: an object used as a map from keys to values. *)
Abbreviation Capabilities := (gmap string Value).

(** [interface CapabilitiesConfig { android; ios }]. *)
Record CapabilitiesConfig : Type := mkConfig {
  android_caps : Capabilities;
  ios_caps : Capabilities;
}.

(** [v === ''] on a property value that may be missing. *)
Definition is_empty_string (v : option Value) : bool :=
  match v with
  | Some (VStr s) => if decide (s = "") then true else false
  | _ => false
  end.

(** Object spread: [{...target, ...source}] copies the own properties of
    [source] over those of [target]. *)
Definition spread (target source : Capabilities) : Capabilities :=
  source ∪ target.

(** [...(cond && {obj})]: a falsy operand spreads nothing. *)
Definition spread_if (target : Capabilities) (cond : bool)
    (source : Capabilities) : Capabilities :=
  if cond then spread target source else target.

(** [...customCaps] where [customCaps] may be [undefined]. *)
Definition spread_opt (target : Capabilities)
    (source : option Capabilities) : Capabilities :=
  match source with
  | Some m => spread target m
  | None => target
  end.

(** [Object.keys(o)]: the own keys of the object. *)
Definition Object_keys (o : Capabilities) : list string :=
  (map_to_list o).*1.

(** [filterEmptyCapabilities]: copy the object, then visit the keys of the
    copy and delete each one whose current value is the empty string. *)
Definition filterEmptyCapabilities (capabilities : Capabilities) : Capabilities :=
  let filtered := spread ∅ capabilities in
  foldl (fun acc key =>
           if is_empty_string (acc !! key) then delete key acc else acc)
        filtered (Object_keys filtered).

(** ** Strings: truthiness and [trim] *)

(** Truthiness of a [string | null | undefined]: absent and [''] are falsy. *)
Definition truthy (s : option string) : bool :=
  match s with
  | Some u => if decide (u = "") then false else true
  | None => false
  end.

(** White space and line terminators removed by [String.prototype.trim],
    for code units below 256: TAB, LF, VT, FF, CR, SPACE and NBSP. *)
Definition is_white_space (c : ascii) : bool :=
  let n := nat_of_ascii c in
  (n =? 9)%nat || (n =? 10)%nat || (n =? 11)%nat || (n =? 12)%nat
  || (n =? 13)%nat || (n =? 32)%nat || (n =? 160)%nat.

Fixpoint trimStart (s : string) : string :=
  match s with
  | String c rest => if is_white_space c then trimStart rest else s
  | EmptyString => EmptyString
  end.

Definition reverse_string (s : string) : string :=
  string_of_list_ascii (rev (list_ascii_of_string s)).

Definition trim (s : string) : string :=
  reverse_string (trimStart (reverse_string (trimStart s))).

(** ** The collaborators' state *)

Inductive Platform : Type := android | ios.

Inductive DeviceType : Type := simulator | real.

#[global] Instance Platform_eq_dec : EqDecision Platform.
Proof. solve_decision. Defined.

#[global] Instance DeviceType_eq_dec : EqDecision DeviceType.
Proof. solve_decision. Defined.

(** The device-info object: [{ name?, platform? }]. *)
Record DeviceInfo : Type := mkInfo {
  info_name : option string;
  info_platform : option string;
}.

(** Modelled from the spec: [select-device.js] is not among the sources.
    Its module state is the device-selection state of the data model: a
    selected identifier, a selected device type and the selected device's
    info, each possibly absent. *)
Record Selection : Type := mkSelection {
  selectedDeviceUdid : option string;
  selectedDeviceType : option DeviceType;
  selectedDeviceInfo : option DeviceInfo;
}.

(** A device descriptor as listed by the device manager. *)
Record IOSDevice : Type := mkDevice {
  device_udid : string;
  device_name : string;
}.

(** A thrown [Error] and its [message]. *)
Inductive JsError : Type := Error (message : string).

Definition error_message (e : JsError) : string :=
  match e with Error m => m end.

Inductive Outcome (A : Type) : Type :=
  | Return (a : A)
  | Throw (e : JsError).
Arguments Return {A} a.
Arguments Throw {A} e.

(** Calls to side-effecting collaborators, in the order they happen. *)
Inductive Event : Type :=
  | EvGetDevicesByType (t : DeviceType)
  | EvClearSelectedDevice
  | EvSafeDeleteSession
  | EvReadConfig (path : string)
  | EvDriverCreateSession (p : Platform) (caps : Capabilities)
  | EvNewSession (url : string) (caps : Capabilities)
  | EvSetSession (id : string).

(** Everything outside the tool that it reads or changes. The mutable part
    is [selection], [session] and [trace]; the other fields fix how the
    collaborators answer. *)
Record World : Type := mkWorld {
  selection : Selection;
  (** [IOSManager.getInstance().getDevicesByType] *)
  iosDevices : DeviceType -> list IOSDevice;
  (** the session store: the id of the active session, if any *)
  session : option string;
  (** [Some m]: [safeDeleteSession()] rejects with [Error(m)] *)
  teardownFailure : option string;
  (** [process.env.CAPABILITIES_CONFIG] *)
  CAPABILITIES_CONFIG : option string;
  (** [access], [readFile] and [JSON.parse] on a path: what is parsed, or
      what any of the three throws *)
  configFile : string -> Outcome CapabilitiesConfig;
  (** [driver.createSession(null, {alwaysMatch, firstMatch})] *)
  driverCreateSession : Platform -> Capabilities -> Outcome string;
  (** [new URL(url)] followed by [WebDriver.newSession] *)
  webDriverNewSession : string -> Capabilities -> Outcome string;
  trace : list Event;
}.

Definition with_selection (s : Selection) (w : World) : World :=
  mkWorld s (iosDevices w) (session w) (teardownFailure w)
    (CAPABILITIES_CONFIG w) (configFile w) (driverCreateSession w)
    (webDriverNewSession w) (trace w).

Definition with_session (s : option string) (w : World) : World :=
  mkWorld (selection w) (iosDevices w) s (teardownFailure w)
    (CAPABILITIES_CONFIG w) (configFile w) (driverCreateSession w)
    (webDriverNewSession w) (trace w).

Definition record (e : Event) (w : World) : World :=
  mkWorld (selection w) (iosDevices w) (session w) (teardownFailure w)
    (CAPABILITIES_CONFIG w) (configFile w) (driverCreateSession w)
    (webDriverNewSession w) (trace w ++ [e]).

(** ** The monad of the tool's code: state and exceptions *)

Definition M (A : Type) : Type := World -> Outcome A * World.

Definition ret {A} (a : A) : M A := fun w => (Return a, w).

Definition throw {A} (e : JsError) : M A := fun w => (Throw e, w).

#[global] Instance M_ret : MRet M := fun A a => ret a.

#[global] Instance M_bind : MBind M := fun A B k m w =>
  match m w with
  | (Return a, w') => k a w'
  | (Throw e, w') => (Throw e, w')
  end.

(** [try { body } catch (e) { handler }]. *)
Definition try_catch {A} (body : M A) (handler : JsError -> M A) : M A :=
  fun w =>
    match body w with
    | (Return a, w') => (Return a, w')
    | (Throw e, w') => handler e w'
    end.

(** ** [select-device.js] and the device manager *)

Definition getSelectedDevice : M (option string) :=
  fun w => (Return (selectedDeviceUdid (selection w)), w).

Definition getSelectedDeviceType : M (option DeviceType) :=
  fun w => (Return (selectedDeviceType (selection w)), w).

Definition getSelectedDeviceInfo : M (option DeviceInfo) :=
  fun w => (Return (selectedDeviceInfo (selection w)), w).

(** Modelled from the spec: [clearSelectedDevice] of [select-device.js] is
    not among the sources; the spec says that it clears the device-selection
    state's identifier. *)
Definition cleared (s : Selection) : Selection :=
  mkSelection None (selectedDeviceType s) (selectedDeviceInfo s).

Definition clearSelectedDevice : M unit :=
  fun w =>
    (Return tt, record EvClearSelectedDevice (with_selection (cleared (selection w)) w)).

(** Modelled from the spec: [ios-manager.js] is not among the sources; by
    its contract [getDevicesByType(type)] yields a list of device
    descriptors. *)
Definition getDevicesByType (t : DeviceType) : M (list IOSDevice) :=
  fun w => (Return (iosDevices w t), record (EvGetDevicesByType t) w).

(** Modelled from the spec: [session-store.js] is not among the sources. The
    store holds at most one active session; [safeDeleteSession] may fail, and
    [setSession] replaces whatever was there. *)
Definition hasActiveSession : M bool :=
  fun w => (Return (bool_decide (is_Some (session w))), w).

Definition safeDeleteSession : M unit :=
  fun w =>
    match teardownFailure w with
    | Some m => (Throw (Error m), record EvSafeDeleteSession w)
    | None => (Return tt, record EvSafeDeleteSession (with_session None w))
    end.

Definition setSession (sessionId : string) : M unit :=
  fun w => (Return tt, record (EvSetSession sessionId) (with_session (Some sessionId) w)).

(** [await access(configPath); await readFile(configPath); JSON.parse(...)]. *)
Definition readConfigFile (configPath : string) : M CapabilitiesConfig :=
  fun w => (configFile w configPath, record (EvReadConfig configPath) w).

(** The drivers: [new AndroidUiautomator2Driver()], [new XCUITestDriver()]. *)
Inductive Driver : Type := AndroidUiautomator2Driver | XCUITestDriver.

Definition driver_platform (d : Driver) : Platform :=
  match d with
  | AndroidUiautomator2Driver => android
  | XCUITestDriver => ios
  end.

(** [...(x && obj)] for a [string | undefined] operand [x]: nothing is
    spread when [x] is absent or empty. *)
Definition spread_and (target : Capabilities) (x : option string)
    (obj : string -> Capabilities) : Capabilities :=
  match x with
  | Some s => if truthy (Some s) then spread target (obj s) else target
  | None => target
  end.

(** [if (x) { body }] for a [string | undefined] condition. *)
Definition when_truthy (x : option string) (body : M unit) : M unit :=
  if truthy x then body else mret tt.

(** ** The current tool: [src/tools/session/create-session.ts] *)

Definition empty_config : CapabilitiesConfig := mkConfig ∅ ∅.

Definition loadCapabilitiesConfig : M CapabilitiesConfig :=
  fun w =>
    let configPath := CAPABILITIES_CONFIG w in
    match configPath with
    | Some path =>
        if truthy configPath
        then try_catch (readConfigFile path) (fun _ => mret empty_config) w
        else (Return empty_config, w)
    | None => (Return empty_config, w)
    end.

Definition buildAndroidCapabilities (configCaps : Capabilities)
    (customCaps : option Capabilities) (isRemoteServer : bool) : M Capabilities :=
  let defaultCaps : Capabilities :=
    {[ "platformName" := VStr "Android";
       "appium:automationName" := VStr "UiAutomator2";
       "appium:deviceName" := VStr "Android Device" ]} in
  selectedDeviceUdid ← (if isRemoteServer then mret None else getSelectedDevice);
  let capabilities :=
    spread_opt
      (spread_and
         (spread (spread ∅ defaultCaps) configCaps)
         selectedDeviceUdid (fun udid => {[ "appium:udid" := VStr udid ]}))
      customCaps in
  when_truthy selectedDeviceUdid clearSelectedDevice;;
  mret (filterEmptyCapabilities capabilities).

Definition ambiguous_message (deviceType : DeviceType) (count : nat) : string :=
  "Multiple iOS "
  +:+ (match deviceType with simulator => "simulators" | real => "devices" end)
  +:+ " found (" +:+ pretty count
  +:+ "). Please use the select_device tool to choose which device to use before creating a session.".

Definition validateIOSDeviceSelection (deviceType : option DeviceType) : M unit :=
  match deviceType with
  | None => mret tt
  | Some t =>
      devices ← getDevicesByType t;
      if (1 <? List.length devices)%nat
      then
        selectedDevice ← getSelectedDevice;
        if negb (truthy selectedDevice)
        then throw (Error (ambiguous_message t (List.length devices)))
        else mret tt
      else mret tt
  end.

(** [selectedDeviceInfo?.name || 'iPhone Simulator']. *)
Definition ios_deviceName (selectedDeviceInfo : option DeviceInfo) : string :=
  let name := selectedDeviceInfo ≫= info_name in
  if truthy name then default "" name else "iPhone Simulator".

(** [selectedDeviceInfo?.platform && selectedDeviceInfo.platform.trim() !== ''
     ? selectedDeviceInfo.platform : undefined]. *)
Definition ios_platformVersion (selectedDeviceInfo : option DeviceInfo) : option string :=
  match selectedDeviceInfo ≫= info_platform with
  | Some p =>
      if truthy (Some p) && negb (bool_decide (trim p = ""))
      then Some p else None
  | None => None
  end.

Definition simulator_stability_caps : Capabilities :=
  {[ "appium:usePrebuiltWDA" := VBool true;
     "appium:wdaStartupRetries" := VNum 4;
     "appium:wdaStartupRetryInterval" := VNum 20000 ]}.

Definition buildIOSCapabilities (configCaps : Capabilities)
    (customCaps : option Capabilities) (isRemoteServer : bool) : M Capabilities :=
  deviceType ← (if isRemoteServer then mret None else getSelectedDeviceType);
  validateIOSDeviceSelection deviceType;;
  selectedDeviceUdid ← (if isRemoteServer then mret None else getSelectedDevice);
  selectedDeviceInfo ← (if isRemoteServer then mret None else getSelectedDeviceInfo);
  let defaultCaps : Capabilities :=
    {[ "platformName" := VStr "iOS";
       "appium:automationName" := VStr "XCUITest";
       "appium:deviceName" := VStr (ios_deviceName selectedDeviceInfo) ]} in
  let platformVersion := ios_platformVersion selectedDeviceInfo in
  let capabilities :=
    spread_opt
      (spread_if
         (spread_and
            (spread
               (spread_and
                  (spread ∅ defaultCaps)
                  platformVersion
                  (fun v => {[ "appium:platformVersion" := VStr v ]}))
               configCaps)
            selectedDeviceUdid (fun udid => {[ "appium:udid" := VStr udid ]}))
         (bool_decide (deviceType = Some simulator))
         simulator_stability_caps)
      customCaps in
  when_truthy selectedDeviceUdid clearSelectedDevice;;
  mret (filterEmptyCapabilities capabilities).

Definition createDriverForPlatform (platform : Platform) : Driver :=
  match platform with
  | android => AndroidUiautomator2Driver
  | ios => XCUITestDriver
  end.

Definition createDriverSession (driver : Driver) (capabilities : Capabilities) : M string :=
  fun w =>
    (driverCreateSession w (driver_platform driver) capabilities,
     record (EvDriverCreateSession (driver_platform driver) capabilities) w).

(** [new URL(remoteServerUrl)] and [WebDriver.newSession({...})]; the
    result is the client's [sessionId]. *)
Definition newSession (remoteServerUrl : string) (capabilities : Capabilities) : M string :=
  fun w =>
    (webDriverNewSession w remoteServerUrl capabilities,
     record (EvNewSession remoteServerUrl capabilities) w).

(** The tool's arguments, as the schema admits them. *)
Record Args : Type := mkArgs {
  arg_platform : Platform;
  arg_capabilities : option Capabilities;
  arg_remoteServerUrl : option string;
}.

(** What the response is made of: the session id, the three capabilities the
    text summary prints, and the URI of the dashboard resource when there is
    one. *)
Record Response : Type := mkResponse {
  response_platform : Platform;
  response_sessionId : string;
  response_platformName : option Value;
  response_automationName : option Value;
  response_deviceName : option Value;
  response_ui : option string;
}.

(** The conditional of [execute] that picks the builder for the platform:
    the capability builder [buildCapabilities(platform, configCaps,
    customCaps, isRemote)]. *)
Definition buildCapabilities (platform : Platform) (platformCaps : Capabilities)
    (customCapabilities : option Capabilities) (isRemote : bool) : M Capabilities :=
  match platform with
  | android => buildAndroidCapabilities platformCaps customCapabilities isRemote
  | ios => buildIOSCapabilities platformCaps customCapabilities isRemote
  end.

(** The part of [execute] that follows the teardown of a prior session:
    configuration loading, capability building, dispatch, registration and
    the response. *)
Definition create_after_teardown (args : Args) : M Response :=
  let platform := arg_platform args in
  let customCapabilities := arg_capabilities args in
  let remoteServerUrl := arg_remoteServerUrl args in
  configCapabilities ← loadCapabilitiesConfig;
  let platformCaps :=
    match platform with
    | android => android_caps configCapabilities
    | ios => ios_caps configCapabilities
    end in
  finalCapabilities ←
    buildCapabilities platform platformCaps customCapabilities (truthy remoteServerUrl);
  sessionId ←
    (match remoteServerUrl with
     | Some url =>
         if truthy remoteServerUrl
         then
           clientSessionId ← newSession url finalCapabilities;
           setSession clientSessionId;;
           mret clientSessionId
         else
           let driver := createDriverForPlatform platform in
           sessionId ← createDriverSession driver finalCapabilities;
           setSession sessionId;;
           mret sessionId
     | None =>
         let driver := createDriverForPlatform platform in
         sessionId ← createDriverSession driver finalCapabilities;
         setSession sessionId;;
         mret sessionId
     end);
  mret (mkResponse platform sessionId
          (finalCapabilities !! "platformName")
          (finalCapabilities !! "appium:automationName")
          (finalCapabilities !! "appium:deviceName")
          (Some ("ui://appium-mcp/session-dashboard/" +:+ sessionId))).

Definition wrap_failure (error : JsError) : M Response :=
  throw (Error ("Failed to create session: " +:+ error_message error)).

Definition execute (args : Args) : M Response :=
  try_catch
    (active ← hasActiveSession;
     (if (active : bool)
      then try_catch safeDeleteSession (fun _ => mret tt)
      else mret tt);;
     create_after_teardown args)
    wrap_failure.

(** ** The earlier copy of the tool

    It has no remote-server argument. Its [loadCapabilitiesConfig],
    [filterEmptyCapabilities], [validateIOSDeviceSelection],
    [createDriverForPlatform] and [createDriverSession] read the same as the
    current ones, which stand for them here. *)
Module Part000.

Definition buildAndroidCapabilities (configCaps : Capabilities)
    (customCaps : option Capabilities) : M Capabilities :=
  let defaultCaps : Capabilities :=
    {[ "platformName" := VStr "Android";
       "appium:automationName" := VStr "UiAutomator2";
       "appium:deviceName" := VStr "Android Device" ]} in
  selectedDeviceUdid ← getSelectedDevice;
  let capabilities :=
    spread_opt
      (spread_and
         (spread (spread ∅ defaultCaps) configCaps)
         selectedDeviceUdid (fun udid => {[ "appium:udid" := VStr udid ]}))
      customCaps in
  when_truthy selectedDeviceUdid clearSelectedDevice;;
  mret (filterEmptyCapabilities capabilities).

Definition buildIOSCapabilities (configCaps : Capabilities)
    (customCaps : option Capabilities) : M Capabilities :=
  deviceType ← getSelectedDeviceType;
  validateIOSDeviceSelection deviceType;;
  let defaultCaps : Capabilities :=
    {[ "platformName" := VStr "iOS";
       "appium:automationName" := VStr "XCUITest";
       "appium:deviceName" := VStr "iPhone Simulator" ]} in
  selectedDeviceUdid ← getSelectedDevice;
  selectedDeviceInfo ← getSelectedDeviceInfo;
  let platformVersion := ios_platformVersion selectedDeviceInfo in
  let capabilities :=
    spread_opt
      (spread_if
         (spread_and
            (spread
               (spread_and
                  (spread ∅ defaultCaps)
                  platformVersion
                  (fun v => {[ "appium:platformVersion" := VStr v ]}))
               configCaps)
            selectedDeviceUdid (fun udid => {[ "appium:udid" := VStr udid ]}))
         (bool_decide (deviceType = Some simulator))
         simulator_stability_caps)
      customCaps in
  when_truthy selectedDeviceUdid clearSelectedDevice;;
  mret (filterEmptyCapabilities capabilities).

Definition create_after_teardown (args : Args) : M Response :=
  let platform := arg_platform args in
  let customCapabilities := arg_capabilities args in
  configCapabilities ← loadCapabilitiesConfig;
  let platformCaps :=
    match platform with
    | android => android_caps configCapabilities
    | ios => ios_caps configCapabilities
    end in
  finalCapabilities ←
    (match platform with
     | android => buildAndroidCapabilities platformCaps customCapabilities
     | ios => buildIOSCapabilities platformCaps customCapabilities
     end);
  let driver := createDriverForPlatform platform in
  sessionId ← createDriverSession driver finalCapabilities;
  setSession sessionId;;
  mret (mkResponse platform sessionId
          (finalCapabilities !! "platformName")
          (finalCapabilities !! "appium:automationName")
          (finalCapabilities !! "appium:deviceName")
          None).

Definition execute (args : Args) : M Response :=
  try_catch
    (active ← hasActiveSession;
     (if (active : bool) then safeDeleteSession else mret tt);;
     create_after_teardown args)
    wrap_failure.

End Part000.

(** ** Notions used in the statements *)

Definition count_clears (t : list Event) : nat :=
  List.length (List.filter (fun e => match e with EvClearSelectedDevice => true | _ => false end) t).

Definition count_queries (t : list Event) : nat :=
  List.length (List.filter (fun e => match e with EvGetDevicesByType _ => true | _ => false end) t).

(** The object literal [capabilities] of [buildAndroidCapabilities], for the
    identifier [u] it read. *)
Definition android_merged (configCaps : Capabilities)
    (customCaps : option Capabilities) (u : option string) : Capabilities :=
  spread_opt
    (spread_and
       (spread (spread ∅
          {[ "platformName" := VStr "Android";
             "appium:automationName" := VStr "UiAutomator2";
             "appium:deviceName" := VStr "Android Device" ]}) configCaps)
       u (fun udid => {[ "appium:udid" := VStr udid ]}))
    customCaps.

(** The object literal [capabilities] of [buildIOSCapabilities], for the
    device type, identifier and info it read. *)
Definition ios_merged (configCaps : Capabilities)
    (customCaps : option Capabilities) (t : option DeviceType)
    (u : option string) (i : option DeviceInfo) : Capabilities :=
  spread_opt
    (spread_if
       (spread_and
          (spread
             (spread_and
                (spread ∅
                   {[ "platformName" := VStr "iOS";
                      "appium:automationName" := VStr "XCUITest";
                      "appium:deviceName" := VStr (ios_deviceName i) ]})
                (ios_platformVersion i)
                (fun v => {[ "appium:platformVersion" := VStr v ]}))
             configCaps)
          u (fun udid => {[ "appium:udid" := VStr udid ]}))
       (bool_decide (t = Some simulator))
       simulator_stability_caps)
    customCaps.

(** The state after [clearSelectedDevice()]. *)
Definition after_clear (w : World) : World :=
  record EvClearSelectedDevice (with_selection (cleared (selection w)) w).

(** The validator asks for an explicit selection: several devices of the
    type and no identifier selected. *)
Definition ambiguous (t : DeviceType) (w : World) : bool :=
  (1 <? List.length (iosDevices w t))%nat
  && negb (truthy (selectedDeviceUdid (selection w))).

(** The merged object a build filters, as a function of what it is given
    and of the selection it finds. *)
Definition merged (platform : Platform) (configCaps : Capabilities)
    (customCaps : option Capabilities) (isRemote : bool) (s : Selection) : Capabilities :=
  match platform with
  | android =>
      android_merged configCaps customCaps
        (if isRemote then None else selectedDeviceUdid s)
  | ios =>
      if isRemote
      then ios_merged configCaps customCaps None None None
      else ios_merged configCaps customCaps
             (selectedDeviceType s) (selectedDeviceUdid s) (selectedDeviceInfo s)
  end.

(** The identifier a build consumes: read, found non-empty, and injected. *)
Definition consumed (isRemote : bool) (s : Selection) : bool :=
  negb isRemote && truthy (selectedDeviceUdid s).

Definition default_platformName (platform : Platform) : string :=
  match platform with android => "Android" | ios => "iOS" end.

Definition default_automationName (platform : Platform) : string :=
  match platform with android => "UiAutomator2" | ios => "XCUITest" end.

(** The value the operator and the caller give a key: the custom one when
    there is one, else the config file's. *)
Definition supplied (configCaps : Capabilities)
    (customCaps : option Capabilities) (k : string) : option Value :=
  match customCaps ≫= (.!! k) with
  | Some v => Some v
  | None => configCaps !! k
  end.

(** A world with the given selection and device lists, no active session,
    no config file, and drivers that answer with a fixed session id. *)
Definition sample_world (s : Selection) (devices : DeviceType -> list IOSDevice) : World :=
  mkWorld s devices None None None
    (fun _ => Throw (Error "ENOENT"))
    (fun _ _ => Return "session-1")
    (fun _ _ => Return "remote-1")
    [].

Definition no_selection : Selection := mkSelection None None None.

Definition iphone15_selected (udid : string) : Selection :=
  mkSelection (Some udid) (Some simulator)
    (Some (mkInfo (Some "iPhone 15") (Some "17.0"))).

Definition no_devices : DeviceType -> list IOSDevice := fun _ => [].

Definition two_simulators : DeviceType -> list IOSDevice :=
  fun t =>
    match t with
    | simulator => [mkDevice "A1" "iPhone 15"; mkDevice "B2" "iPhone 15 Pro"]
    | real => []
    end.

Definition one_simulator : DeviceType -> list IOSDevice :=
  fun t =>
    match t with
    | simulator => [mkDevice "A1" "iPhone 15"]
    | real => []
    end.

(** The first part of the precedence property read without the config file:
    the two fixed keys keep the platform default whenever the custom
    capabilities do not supply them. *)
Definition defaults_unless_custom (platform : Platform) (configCaps : Capabilities)
    (customCaps : option Capabilities) (isRemote : bool) (w : World) : Prop :=
  ∀ caps w',
    buildCapabilities platform configCaps customCaps isRemote w = (Return caps, w') →
    (customCaps ≫= (.!! "platformName") = None →
     caps !! "platformName" = Some (VStr (default_platformName platform)))
    ∧ (customCaps ≫= (.!! "appium:automationName") = None →
       caps !! "appium:automationName" = Some (VStr (default_automationName platform))).

(** The keys that come from local device state: the device identifier, the
    simulator-stability keys and the auto-detected platform version. *)
Definition local_device_keys : list string :=
  [ "appium:udid"; "appium:usePrebuiltWDA"; "appium:wdaStartupRetries";
    "appium:wdaStartupRetryInterval"; "appium:platformVersion" ].

(** The remote property read as an absolute one: a remote build never
    returns a set with [appium:udid]. *)
Definition remote_never_has_udid (platform : Platform) (configCaps : Capabilities)
    (customCaps : option Capabilities) (w : World) : Prop :=
  ∀ caps w',
    buildCapabilities platform configCaps customCaps true w = (Return caps, w') →
    caps !! "appium:udid" = None.

(** The presence invariant read as an absolute one. *)
Definition fixed_keys_always_present (platform : Platform) (configCaps : Capabilities)
    (customCaps : option Capabilities) (isRemote : bool) (w : World) : Prop :=
  ∀ caps w',
    buildCapabilities platform configCaps customCaps isRemote w = (Return caps, w') →
    is_Some (caps !! "platformName") ∧ is_Some (caps !! "appium:automationName").

(** A world with an active session whose teardown fails. *)
Definition failing_teardown_world : World :=
  mkWorld no_selection no_devices (Some "session-0") (Some "socket hang up") None
    (fun _ => Throw (Error "ENOENT"))
    (fun _ _ => Return "session-1")
    (fun _ _ => Return "remote-1")
    [].

(** ** Further notions: strings, stages of a call, traces *)

(** Every code unit of the string is white space ([''] included). *)
Definition all_white_space (s : string) : bool :=
  forallb is_white_space (list_ascii_of_string s).

(** What the filter leaves of a merged value. *)
Definition strip (v : option Value) : option Value :=
  if is_empty_string v then None else v.

(** The number of events of a kind in a trace. *)
Definition count_events (kind : Event -> bool) (t : list Event) : nat :=
  List.length (List.filter kind t).

Definition is_teardown (e : Event) : bool :=
  match e with EvSafeDeleteSession => true | _ => false end.

Definition is_config_read (e : Event) : bool :=
  match e with EvReadConfig _ => true | _ => false end.



Definition is_registration (e : Event) : bool :=
  match e with EvSetSession _ => true | _ => false end.

Definition is_device_query (e : Event) : bool :=
  match e with EvGetDevicesByType _ => true | _ => false end.

Definition is_clear (e : Event) : bool :=
  match e with EvClearSelectedDevice => true | _ => false end.

(** The path [loadCapabilitiesConfig] reads, if it reads one. *)
Definition config_path_read (w : World) : option string :=
  if truthy (CAPABILITIES_CONFIG w) then CAPABILITIES_CONFIG w else None.

(** The world after the teardown step of [execute]. *)
Definition after_teardown (w : World) : World :=
  match session w with
  | Some _ =>
      match teardownFailure w with
      | Some _ => record EvSafeDeleteSession w
      | None => record EvSafeDeleteSession (with_session None w)
      end
  | None => w
  end.

(** The dispatch a call makes once its capabilities are built: the event it
    leaves and the collaborator's answer. *)
Definition dispatch_event (args : Args) (caps : Capabilities) : Event :=
  match arg_remoteServerUrl args with
  | Some url =>
      if truthy (Some url) then EvNewSession url caps
      else EvDriverCreateSession (arg_platform args) caps
  | None => EvDriverCreateSession (arg_platform args) caps
  end.

Definition dispatch_answer (args : Args) (caps : Capabilities) (w : World) : Outcome string :=
  match arg_remoteServerUrl args with
  | Some url =>
      if truthy (Some url) then webDriverNewSession w url caps
      else driverCreateSession w (arg_platform args) caps
  | None => driverCreateSession w (arg_platform args) caps
  end.

(** The platform's part of a config. *)
Definition platform_caps (platform : Platform) (c : CapabilitiesConfig) : Capabilities :=
  match platform with
  | android => android_caps c
  | ios => ios_caps c
  end.



(** A world with an active session, a simulator selected among two, and
    collaborators that answer. *)
Definition busy_world : World :=
  mkWorld (mkSelection (Some "A1") (Some simulator)
             (Some (mkInfo (Some "iPhone 15") (Some "17.0"))))
    (fun t => match t with
              | simulator => [mkDevice "A1" "iPhone 15"; mkDevice "B2" "iPhone 15 Pro"]
              | real => []
              end)
    (Some "session-0") None (Some "/etc/caps.json")
    (fun _ => Return (mkConfig ∅ {[ "appium:platformVersion" := VStr "16.4" ]}))
    (fun _ _ => Return "session-1")
    (fun _ _ => Return "remote-1")
    [].

(** The same world with a driver that fails. *)
Definition failing_driver_world : World :=
  mkWorld (selection busy_world) (iosDevices busy_world) (session busy_world)
    (teardownFailure busy_world) (CAPABILITIES_CONFIG busy_world)
    (configFile busy_world)
    (fun _ _ => Throw (Error "ECONNREFUSED"))
    (fun _ _ => Throw (Error "ECONNREFUSED"))
    [].

Definition stability_keys : list string :=
  [ "appium:usePrebuiltWDA"; "appium:wdaStartupRetries";
    "appium:wdaStartupRetryInterval" ].

(** The device name a build falls back on. *)
Definition default_deviceName (platform : Platform) (isRemote : bool)
    (s : Selection) : string :=
  match platform with
  | android => "Android Device"
  | ios => ios_deviceName (if isRemote then None else selectedDeviceInfo s)
  end.

(** The platform version a build detects from the selected device. *)
Definition detected_version (platform : Platform) (isRemote : bool)
    (s : Selection) : option string :=
  match platform with
  | android => None
  | ios => if isRemote then None else ios_platformVersion (selectedDeviceInfo s)
  end.

(** The build adds the simulator-stability capabilities. *)
Definition simulator_selected (platform : Platform) (isRemote : bool)
    (s : Selection) : bool :=
  match platform with
  | android => false
  | ios => negb isRemote && bool_decide (selectedDeviceType s = Some simulator)
  end.

(** The keys some step of the merge writes by itself. *)
Definition builder_keys : list string :=
  [ "platformName"; "appium:automationName"; "appium:deviceName";
    "appium:platformVersion"; "appium:udid"; "appium:usePrebuiltWDA";
    "appium:wdaStartupRetries"; "appium:wdaStartupRetryInterval" ].

(** What [loadCapabilitiesConfig] returns and the world it leaves. *)
Definition loaded_config (w : World) : CapabilitiesConfig :=
  match config_path_read w with
  | Some path =>
      match configFile w path with
      | Return c => c
      | Throw _ => empty_config
      end
  | None => empty_config
  end.

Definition after_load (w : World) : World :=
  match config_path_read w with
  | Some path => record (EvReadConfig path) w
  | None => w
  end.

(** The device type the validator of a build asks about, if it is called
    with one. *)
Definition validated_type (platform : Platform) (isRemote : bool)
    (w : World) : option DeviceType :=
  match platform with
  | android => None
  | ios => if isRemote then None else selectedDeviceType (selection w)
  end.

(** The device type on which a build stops with the validator's error. *)
Definition blocked (platform : Platform) (isRemote : bool) (w : World) : option DeviceType :=
  match validated_type platform isRemote w with
  | Some d => if ambiguous d w then Some d else None
  | None => None
  end.

(** The world a build leaves when it returns. *)
Definition after_build (platform : Platform) (isRemote : bool) (w : World) : World :=
  let w1 := match validated_type platform isRemote w with
            | Some d => record (EvGetDevicesByType d) w
            | None => w
            end in
  if consumed isRemote (selection w) then after_clear w1 else w1.

(** The selection with the name of the selected device forgotten. *)
Definition forget_name (s : Selection) : Selection :=
  mkSelection (selectedDeviceUdid s) (selectedDeviceType s)
    (Some (mkInfo None (selectedDeviceInfo s ≫= info_platform))).

(** The events each stage of a call appends to the trace. *)
Definition teardown_events (w : World) : list Event :=
  match session w with
  | Some _ => [EvSafeDeleteSession]
  | None => []
  end.

Definition load_events (w : World) : list Event :=
  match config_path_read w with
  | Some path => [EvReadConfig path]
  | None => []
  end.

Definition build_events (platform : Platform) (isRemote : bool) (w : World) : list Event :=
  (match validated_type platform isRemote w with
   | Some d => [EvGetDevicesByType d]
   | None => []
   end
   ++ if consumed isRemote (selection w) then [EvClearSelectedDevice] else [])%list.

(** The capability set a call builds in world [w], when its build returns. *)
Definition final_capabilities (args : Args) (w : World) : Capabilities :=
  filterEmptyCapabilities
    (merged (arg_platform args)
       (platform_caps (arg_platform args) (loaded_config w))
       (arg_capabilities args)
       (truthy (arg_remoteServerUrl args))
       (selection w)).

(** The response of the current tool for a session id and a capability
    set. *)
Definition response_for (platform : Platform) (sessionId : string)
    (caps : Capabilities) : Response :=
  mkResponse platform sessionId
    (caps !! "platformName") (caps !! "appium:automationName")
    (caps !! "appium:deviceName")
    (Some ("ui://appium-mcp/session-dashboard/" +:+ sessionId)).

(** All the events a call of [execute] appends, in order: teardown, config
    read, device query, clearing of the selection, dispatch, registration. *)
Definition call_events (args : Args) (w : World) : list Event :=
  let platform := arg_platform args in
  let isRemote := truthy (arg_remoteServerUrl args) in
  (teardown_events w ++ load_events w ++
   match blocked platform isRemote w with
   | Some d => [EvGetDevicesByType d]
   | None =>
       build_events platform isRemote w
       ++ [dispatch_event args (final_capabilities args w)]
       ++ match dispatch_answer args (final_capabilities args w) w with
          | Return sessionId => [EvSetSession sessionId]
          | Throw _ => []
          end
   end)%list.

(** The session store after the teardown step. *)
Definition session_after_teardown (w : World) : option string :=
  match session w, teardownFailure w with
  | Some _, None => None
  | _, _ => session w
  end.

(** A config file names one device and one platform version, another
    simulator is selected. *)
Definition pinned_config : Capabilities :=
  {[ "appium:udid" := VStr "CONFIG-UDID";
     "appium:platformVersion" := VStr "16.4";
     "appium:wdaStartupRetries" := VNum 1;
     "appium:newCommandTimeout" := VNum 120 ]}.

(** ** Basic facts about the model *)

Section Lookup.

Implicit Types (m target source : Capabilities) (k : string).

Lemma lookup_spread target source k :
  spread target source !! k =
    match source !! k with Some v => Some v | None => target !! k end.
Proof.
  unfold spread. destruct (source !! k) as [v|] eqn:E.
  - by apply lookup_union_Some_l.
  - by rewrite lookup_union_r.
Qed.

Lemma lookup_spread_opt target (source : option Capabilities) k :
  spread_opt target source !! k =
    match source ≫= (.!! k) with Some v => Some v | None => target !! k end.
Proof. destruct source as [s|]; simpl; [apply lookup_spread | done]. Qed.

(** Deleting the empty-string entries along any list of keys. *)
Lemma lookup_strip (l : list string) m k :
  foldl (fun acc key =>
           if is_empty_string (acc !! key) then delete key acc else acc) m l !! k
  = if bool_decide (k ∈ l) && is_empty_string (m !! k) then None else m !! k.
Proof.
  revert m. induction l as [|key l IH]; intros m; simpl.
  - done.
  - rewrite IH. destruct (decide (key = k)) as [->|Hne].
    + rewrite (bool_decide_eq_true_2 (k ∈ k :: l)); [|set_solver]. simpl.
      destruct (is_empty_string (m !! k)) eqn:E.
      * rewrite lookup_delete_eq. simpl. by rewrite andb_false_r.
      * rewrite E. by rewrite andb_false_r.
    + assert (Hk : (if is_empty_string (m !! key) then delete key m else m) !! k = m !! k).
      { destruct (is_empty_string (m !! key)); [by rewrite lookup_delete_ne|done]. }
      rewrite Hk.
      assert (Hin : bool_decide (k ∈ key :: l) = bool_decide (k ∈ l)).
      { apply bool_decide_ext. rewrite elem_of_cons.
        split; [intros [Heq|Hl]; [by subst|done] | by right]. }
      by rewrite Hin.
Qed.

(** The filter, read point-wise. *)
Lemma lookup_filterEmptyCapabilities m k :
  filterEmptyCapabilities m !! k =
    if is_empty_string (m !! k) then None else m !! k.
Proof.
  unfold filterEmptyCapabilities, spread. rewrite (right_id_L ∅ (∪) m).
  rewrite lookup_strip. destruct (is_empty_string (m !! k)) eqn:E.
  - rewrite bool_decide_eq_true_2; [done|].
    destruct (m !! k) as [v|] eqn:Hk; [|done].
    unfold Object_keys. apply list_elem_of_fmap. exists (k, v). split; [done|].
    by apply elem_of_map_to_list.
  - by rewrite andb_false_r.
Qed.

Lemma lookup_spread_if target (cond : bool) source k :
  spread_if target cond source !! k =
    match (if cond then source !! k else None) with
    | Some v => Some v
    | None => target !! k
    end.
Proof. destruct cond; simpl; [apply lookup_spread | done]. Qed.

Lemma lookup_spread_and target (x : option string) (obj : string -> Capabilities) k :
  spread_and target x obj !! k =
    match (if truthy x then x ≫= (fun s => obj s !! k) else None) with
    | Some v => Some v
    | None => target !! k
    end.
Proof.
  destruct x as [s|]; [|done]. unfold spread_and.
  destruct (truthy (Some s)); simpl; [apply lookup_spread | done].
Qed.

Lemma filterEmptyCapabilities_no_empty m k :
  filterEmptyCapabilities m !! k ≠ Some (VStr "").
Proof.
  rewrite lookup_filterEmptyCapabilities.
  destruct (is_empty_string (m !! k)) eqn:E; [done|].
  intros Hk. rewrite Hk in E. simpl in E. by destruct (decide ("" = "")).
Qed.

Lemma is_empty_string_true (v : option Value) :
  is_empty_string v = true ↔ v = Some (VStr "").
Proof.
  split.
  - destruct v as [[s| | | | |]|]; simpl; try done.
    destruct (decide (s = "")) as [->|]; done.
  - intros ->. simpl. by destruct (decide ("" = "")).
Qed.

Lemma is_empty_string_false (v : option Value) :
  is_empty_string v = false ↔ v ≠ Some (VStr "").
Proof.
  rewrite <- is_empty_string_true. destruct (is_empty_string v); naive_solver.
Qed.

End Lookup.

(** ** What the builders do, step by step *)

Lemma buildAndroidCapabilities_run configCaps customCaps (isRemote : bool) w :
  buildAndroidCapabilities configCaps customCaps isRemote w =
    let u := if isRemote then None else selectedDeviceUdid (selection w) in
    (Return (filterEmptyCapabilities (android_merged configCaps customCaps u)),
     if truthy u then after_clear w else w).
Proof.
  unfold buildAndroidCapabilities, android_merged, when_truthy.
  destruct isRemote; simpl.
  - reflexivity.
  - unfold mbind, M_bind, getSelectedDevice. simpl.
    destruct (truthy (selectedDeviceUdid (selection w))); reflexivity.
Qed.

Lemma validateIOSDeviceSelection_run t w :
  validateIOSDeviceSelection (Some t) w =
    (if ambiguous t w
     then Throw (Error (ambiguous_message t (List.length (iosDevices w t))))
     else Return tt,
     record (EvGetDevicesByType t) w).
Proof.
  unfold validateIOSDeviceSelection, ambiguous, mbind, M_bind, getDevicesByType,
    getSelectedDevice. simpl.
  destruct (1 <? List.length (iosDevices w t))%nat; simpl; [|done].
  destruct (truthy (selectedDeviceUdid (selection w))); done.
Qed.

Lemma validateIOSDeviceSelection_absent w :
  validateIOSDeviceSelection None w = (Return tt, w).
Proof. reflexivity. Qed.

Lemma buildIOSCapabilities_remote configCaps customCaps w :
  buildIOSCapabilities configCaps customCaps true w =
    (Return (filterEmptyCapabilities (ios_merged configCaps customCaps None None None)), w).
Proof. reflexivity. Qed.

Lemma buildIOSCapabilities_local configCaps customCaps w :
  buildIOSCapabilities configCaps customCaps false w =
    let t := selectedDeviceType (selection w) in
    let u := selectedDeviceUdid (selection w) in
    let i := selectedDeviceInfo (selection w) in
    let w1 := match t with Some d => record (EvGetDevicesByType d) w | None => w end in
    match t with
    | Some d =>
        if ambiguous d w
        then (Throw (Error (ambiguous_message d (List.length (iosDevices w d)))), w1)
        else (Return (filterEmptyCapabilities (ios_merged configCaps customCaps t u i)),
              if truthy u then after_clear w1 else w1)
    | None =>
        (Return (filterEmptyCapabilities (ios_merged configCaps customCaps t u i)),
         if truthy u then after_clear w1 else w1)
    end.
Proof.
  unfold buildIOSCapabilities, ios_merged, when_truthy, ambiguous,
    validateIOSDeviceSelection, mbind, M_bind, getSelectedDeviceType,
    getDevicesByType, getSelectedDevice, getSelectedDeviceInfo.
  simpl.
  destruct (selectedDeviceType (selection w)) as [d|]; simpl.
  - destruct (1 <? List.length (iosDevices w d))%nat; simpl.
    + destruct (truthy (selectedDeviceUdid (selection w))) eqn:E;
        simpl; rewrite ?E; reflexivity.
    + destruct (truthy (selectedDeviceUdid (selection w))) eqn:E;
        simpl; rewrite ?E; reflexivity.
  - destruct (truthy (selectedDeviceUdid (selection w))) eqn:E;
      simpl; rewrite ?E; reflexivity.
Qed.

Lemma buildCapabilities_Return platform configCaps customCaps isRemote w caps w' :
  buildCapabilities platform configCaps customCaps isRemote w = (Return caps, w') →
  caps = filterEmptyCapabilities
           (merged platform configCaps customCaps isRemote (selection w))
  ∧ w' = (let w1 := match platform, isRemote, selectedDeviceType (selection w) with
                    | ios, false, Some d => record (EvGetDevicesByType d) w
                    | _, _, _ => w
                    end in
          if consumed isRemote (selection w) then after_clear w1 else w1).
Proof.
  unfold buildCapabilities, merged, consumed.
  destruct platform.
  - rewrite buildAndroidCapabilities_run. simpl.
    destruct isRemote; simpl; intros [= <- <-]; done.
  - destruct isRemote.
    + rewrite buildIOSCapabilities_remote. intros [= <- <-]. done.
    + rewrite buildIOSCapabilities_local. simpl.
      destruct (selectedDeviceType (selection w)) as [d|].
      * destruct (ambiguous d w); [done|]. intros [= <- <-]. done.
      * intros [= <- <-]. done.
Qed.

Lemma buildCapabilities_Throw platform configCaps customCaps isRemote w e w' :
  buildCapabilities platform configCaps customCaps isRemote w = (Throw e, w') →
  ∃ d, platform = ios ∧ isRemote = false
       ∧ selectedDeviceType (selection w) = Some d
       ∧ ambiguous d w = true
       ∧ e = Error (ambiguous_message d (List.length (iosDevices w d)))
       ∧ w' = record (EvGetDevicesByType d) w.
Proof.
  unfold buildCapabilities. destruct platform.
  - by rewrite buildAndroidCapabilities_run.
  - destruct isRemote.
    + by rewrite buildIOSCapabilities_remote.
    + rewrite buildIOSCapabilities_local. simpl.
      destruct (selectedDeviceType (selection w)) as [d|]; [|done].
      destruct (ambiguous d w) eqn:Ha; [|done].
      intros [= <- <-]. by exists d.
Qed.

(** A one-entry object spread under a condition leaves every other key
    alone. *)
Lemma entry_layer_ne (x : option string) (key k : string) :
  k ≠ key →
  (if truthy x
   then x ≫= (fun s => ({[ key := VStr s ]} : Capabilities) !! k)
   else None) = None.
Proof.
  intros Hne. destruct (truthy x); [|done].
  destruct x as [s0|]; [|done]. simpl. by apply lookup_singleton_ne.
Qed.

Lemma entry_layer_eq (x : option string) (key : string) :
  truthy x = true →
  (if truthy x
   then x ≫= (fun s => ({[ key := VStr s ]} : Capabilities) !! key)
   else None) = VStr <$> x.
Proof.
  intros ->. destruct x as [s0|]; [|done]. simpl. by rewrite lookup_singleton_eq.
Qed.

Lemma stability_layer_ne (cond : bool) (k : string) :
  k ≠ "appium:usePrebuiltWDA" → k ≠ "appium:wdaStartupRetries" →
  k ≠ "appium:wdaStartupRetryInterval" →
  (if cond then simulator_stability_caps !! k else None) = None.
Proof.
  intros H1 H2 H3. destruct cond; [|done]. unfold simulator_stability_caps.
  rewrite !lookup_insert_ne by done. by apply lookup_singleton_ne.
Qed.

Ltac layers :=
  rewrite ?lookup_spread_opt, ?lookup_spread_if, ?lookup_spread_and,
    ?lookup_spread, ?lookup_spread_and, ?lookup_spread, ?lookup_empty.

Section Merged.

Context (platform : Platform) (configCaps : Capabilities)
        (customCaps : option Capabilities) (isRemote : bool) (s : Selection).

(** Custom capabilities come last in the literal: they always win. *)
Lemma merged_custom k v :
  customCaps ≫= (.!! k) = Some v →
  merged platform configCaps customCaps isRemote s !! k = Some v.
Proof.
  intros Hc. unfold merged, android_merged, ios_merged.
  destruct platform; [|destruct isRemote];
    rewrite lookup_spread_opt, Hc; done.
Qed.

Lemma merged_platformName :
  merged platform configCaps customCaps isRemote s !! "platformName" =
    match supplied configCaps customCaps "platformName" with
    | Some v => Some v
    | None => Some (VStr (default_platformName platform))
    end.
Proof.
  unfold merged, android_merged, ios_merged, supplied.
  destruct platform; [|destruct isRemote]; layers;
    rewrite ?stability_layer_ne, ?entry_layer_ne by done;
    rewrite lookup_insert_eq;
    by destruct (customCaps ≫= lookup "platformName").
Qed.

Lemma merged_automationName :
  merged platform configCaps customCaps isRemote s !! "appium:automationName" =
    match supplied configCaps customCaps "appium:automationName" with
    | Some v => Some v
    | None => Some (VStr (default_automationName platform))
    end.
Proof.
  unfold merged, android_merged, ios_merged, supplied.
  destruct platform; [|destruct isRemote]; layers;
    rewrite ?stability_layer_ne, ?entry_layer_ne by done;
    rewrite lookup_insert_ne, lookup_insert_eq by done;
    by destruct (customCaps ≫= lookup "appium:automationName").
Qed.

(** For a remote target nothing but the three defaults, the config file
    and the custom capabilities enters the object. *)
Lemma merged_remote k :
  isRemote = true →
  k ≠ "platformName" → k ≠ "appium:automationName" → k ≠ "appium:deviceName" →
  merged platform configCaps customCaps isRemote s !! k =
    supplied configCaps customCaps k.
Proof.
  intros -> H1 H2 H3. unfold merged, android_merged, ios_merged, supplied.
  destruct platform; layers; simpl;
    rewrite !lookup_insert_ne, lookup_singleton_ne by done;
    destruct (customCaps ≫= lookup k); try done;
    by destruct (configCaps !! k).
Qed.

End Merged.

Lemma count_clears_record e t :
  count_clears (t ++ [e]) =
    (count_clears t + match e with EvClearSelectedDevice => 1 | _ => 0 end)%nat.
Proof.
  unfold count_clears. rewrite List.filter_app, List.length_app.
  by destruct e.
Qed.

Lemma count_queries_record e t :
  count_queries (t ++ [e]) =
    (count_queries t + match e with EvGetDevicesByType _ => 1 | _ => 0 end)%nat.
Proof.
  unfold count_queries. rewrite List.filter_app, List.length_app.
  by destruct e.
Qed.

(** ** Precedence and defaults *)

(** C1, as stated, fails: a config file that sets [platformName] overrides
    the platform default although the custom capabilities are silent. *)
Lemma config_overrides_platform_default :
  ¬ defaults_unless_custom android {[ "platformName" := VStr "Windows" ]} None false
      (sample_world no_selection no_devices).
Proof.
  intros H.
  destruct (buildCapabilities android {[ "platformName" := VStr "Windows" ]} None false
              (sample_world no_selection no_devices)) as [[caps|e] w'] eqn:E.
  - destruct (H caps w' E) as [Hp _].
    apply buildCapabilities_Return in E as [-> _].
    specialize (Hp eq_refl).
    rewrite lookup_filterEmptyCapabilities, merged_platformName in Hp.
    unfold supplied in Hp. simpl in Hp. rewrite lookup_singleton_eq in Hp.
    simpl in Hp. discriminate Hp.
  - apply buildCapabilities_Throw in E as (d & Hp & _). discriminate Hp.
Qed.

(** C1 (amended): in every capability set a build returns, [platformName]
    and [appium:automationName] hold the fixed platform defaults unless the
    config-file capabilities or the custom capabilities supply the key; and
    every key the custom capabilities give a value other than the empty
    string holds exactly that value. *)
Theorem custom_wins_and_defaults_hold platform configCaps customCaps isRemote w caps w' :
  buildCapabilities platform configCaps customCaps isRemote w = (Return caps, w') →
  (supplied configCaps customCaps "platformName" = None →
   caps !! "platformName" = Some (VStr (default_platformName platform)))
  ∧ (supplied configCaps customCaps "appium:automationName" = None →
     caps !! "appium:automationName" = Some (VStr (default_automationName platform)))
  ∧ (∀ k v, customCaps ≫= (.!! k) = Some v → v ≠ VStr "" → caps !! k = Some v).
Proof.
  intros [-> _]%buildCapabilities_Return. repeat split.
  - intros Hs. rewrite lookup_filterEmptyCapabilities, merged_platformName, Hs.
    by destruct platform.
  - intros Hs. rewrite lookup_filterEmptyCapabilities, merged_automationName, Hs.
    by destruct platform.
  - intros k v Hc Hv. rewrite lookup_filterEmptyCapabilities.
    rewrite (merged_custom _ _ _ _ _ _ _ Hc).
    assert (E : is_empty_string (Some v) = false).
    { apply is_empty_string_false. congruence. }
    by rewrite E.
Qed.

Lemma custom_wins_and_defaults_hold_witness :
  let custom : Capabilities := {[ "appium:app" := VStr "/tmp/demo.apk" ]} in
  ∃ caps w',
    buildCapabilities android ∅ (Some custom) false
      (sample_world no_selection no_devices) = (Return caps, w')
    ∧ caps !! "platformName" = Some (VStr "Android")
    ∧ caps !! "appium:app" = Some (VStr "/tmp/demo.apk").
Proof.
  simpl. eexists _, _. split; [reflexivity|].
  pose proof (custom_wins_and_defaults_hold android ∅
                (Some {[ "appium:app" := VStr "/tmp/demo.apk" ]}) false
                (sample_world no_selection no_devices) _ _ eq_refl)
    as (Hp & _ & Hc).
  split.
  - apply Hp. reflexivity.
  - apply Hc; [reflexivity | discriminate].
Defined.

(** ** Remote targets *)

(** C2, as stated, fails: a caller that names the device of a remote server
    in the custom capabilities gets [appium:udid] in the result. *)
Lemma remote_custom_udid_is_kept :
  ¬ remote_never_has_udid android ∅
      (Some {[ "appium:udid" := VStr "emulator-5554" ]})
      (sample_world no_selection no_devices).
Proof.
  intros H.
  destruct (buildCapabilities android ∅
              (Some {[ "appium:udid" := VStr "emulator-5554" ]}) true
              (sample_world no_selection no_devices)) as [[caps|e] w'] eqn:E.
  - specialize (H caps w' E).
    apply buildCapabilities_Return in E as [-> _].
    rewrite lookup_filterEmptyCapabilities in H.
    rewrite (merged_custom _ _ _ _ _ "appium:udid" (VStr "emulator-5554")) in H.
    + discriminate H.
    + simpl. apply lookup_singleton_eq.
  - apply buildCapabilities_Throw in E as (d & Hp & _). discriminate Hp.
Qed.

(** C2 (amended): for a remote target the build always returns, consults
    and changes nothing of the world, gives the same set whatever the
    device-selection state, and the set has [appium:udid], a
    simulator-stability key or [appium:platformVersion] only when the
    config-file or the custom capabilities supply that key. *)
Theorem remote_ignores_device_state platform configCaps customCaps w :
  ∃ caps,
    buildCapabilities platform configCaps customCaps true w = (Return caps, w)
    ∧ (∀ s, buildCapabilities platform configCaps customCaps true (with_selection s w)
            = (Return caps, with_selection s w))
    ∧ (∀ k, k ∈ local_device_keys →
            supplied configCaps customCaps k = None → caps !! k = None).
Proof.
  exists (filterEmptyCapabilities
            (merged platform configCaps customCaps true (selection w))).
  split; [|split].
  - destruct platform; reflexivity.
  - intros s. destruct platform; reflexivity.
  - intros k Hk Hs. rewrite lookup_filterEmptyCapabilities.
    assert (Hm : merged platform configCaps customCaps true (selection w) !! k = None).
    { rewrite merged_remote; [done|done|..];
        unfold local_device_keys in Hk; rewrite !elem_of_cons in Hk;
        intros ->; destruct Hk as [?|[?|[?|[?|[?|Hnil]]]]];
        try discriminate; by apply elem_of_nil in Hnil. }
    by rewrite Hm.
Qed.

Lemma remote_ignores_device_state_witness :
  ∃ caps,
    buildCapabilities ios ∅ None true
      (sample_world (iphone15_selected "A1") two_simulators)
    = (Return caps, sample_world (iphone15_selected "A1") two_simulators)
    ∧ caps !! "appium:udid" = None
    ∧ caps !! "appium:usePrebuiltWDA" = None
    ∧ caps !! "appium:platformVersion" = None.
Proof.
  destruct (remote_ignores_device_state ios ∅ None
              (sample_world (iphone15_selected "A1") two_simulators))
    as (caps & Hrun & _ & Hkeys).
  exists caps. split; [exact Hrun|].
  repeat split; apply Hkeys; try reflexivity;
    unfold local_device_keys; rewrite !elem_of_cons; tauto.
Defined.

(** ** Keys that are always there, and the empty-string filter *)

(** C4, as stated, fails: an empty-string [platformName] among the custom
    capabilities wins the merge and is then stripped by the filter. *)
Lemma empty_custom_platformName_is_dropped :
  ¬ fixed_keys_always_present android ∅ (Some {[ "platformName" := VStr "" ]}) false
      (sample_world no_selection no_devices).
Proof.
  intros H.
  destruct (buildCapabilities android ∅ (Some {[ "platformName" := VStr "" ]}) false
              (sample_world no_selection no_devices)) as [[caps|e] w'] eqn:E.
  - destruct (H caps w' E) as [[v Hv] _].
    apply buildCapabilities_Return in E as [-> _].
    rewrite lookup_filterEmptyCapabilities in Hv.
    rewrite (merged_custom _ _ _ _ _ "platformName" (VStr "")) in Hv.
    + discriminate Hv.
    + simpl. apply lookup_singleton_eq.
  - apply buildCapabilities_Throw in E as (d & Hp & _). discriminate Hp.
Qed.

(** C4 (amended): a returned capability set contains [platformName], and
    likewise [appium:automationName], exactly when the value the custom
    capabilities (or, when they are silent, the config-file capabilities)
    give that key is not the empty string; a key neither of them supplies is
    present with the platform default. *)
Theorem fixed_keys_present_unless_emptied platform configCaps customCaps isRemote w caps w' :
  buildCapabilities platform configCaps customCaps isRemote w = (Return caps, w') →
  (is_Some (caps !! "platformName")
   ↔ supplied configCaps customCaps "platformName" ≠ Some (VStr ""))
  ∧ (is_Some (caps !! "appium:automationName")
     ↔ supplied configCaps customCaps "appium:automationName" ≠ Some (VStr "")).
Proof.
  intros [-> _]%buildCapabilities_Return. split.
  - rewrite lookup_filterEmptyCapabilities, merged_platformName.
    destruct (supplied configCaps customCaps "platformName") as [v|] eqn:Hs.
    + destruct (is_empty_string (Some v)) eqn:E.
      * apply is_empty_string_true in E as [= ->].
        split; [by intros [? ?] | done].
      * apply is_empty_string_false in E. split; [done | by eexists].
    + destruct platform; simpl; split; (done || by eexists).
  - rewrite lookup_filterEmptyCapabilities, merged_automationName.
    destruct (supplied configCaps customCaps "appium:automationName") as [v|] eqn:Hs.
    + destruct (is_empty_string (Some v)) eqn:E.
      * apply is_empty_string_true in E as [= ->].
        split; [by intros [? ?] | done].
      * apply is_empty_string_false in E. split; [done | by eexists].
    + destruct platform; simpl; split; (done || by eexists).
Qed.

Lemma fixed_keys_present_unless_emptied_witness :
  ∃ caps w',
    buildCapabilities ios ∅ None false
      (sample_world no_selection no_devices) = (Return caps, w')
    ∧ is_Some (caps !! "platformName")
    ∧ is_Some (caps !! "appium:automationName").
Proof.
  eexists _, _. split; [reflexivity|].
  destruct (fixed_keys_present_unless_emptied ios ∅ None false
              (sample_world no_selection no_devices) _ _ eq_refl) as [Hp Ha].
  split; [apply Hp | apply Ha]; discriminate.
Defined.

(** C6: no key of a returned capability set maps to the empty string; the
    set is the merged object without the keys whose merged value is the
    empty string, and every other key keeps its merged value. *)
Theorem no_empty_string_values platform configCaps customCaps isRemote w caps w' :
  buildCapabilities platform configCaps customCaps isRemote w = (Return caps, w') →
  let m := merged platform configCaps customCaps isRemote (selection w) in
  caps = filterEmptyCapabilities m
  ∧ (∀ k, caps !! k ≠ Some (VStr ""))
  ∧ (∀ k, m !! k = Some (VStr "") → caps !! k = None)
  ∧ (∀ k v, m !! k = Some v → v ≠ VStr "" → caps !! k = Some v)
  ∧ (∀ k, m !! k = None → caps !! k = None).
Proof.
  intros [-> _]%buildCapabilities_Return. simpl. split; [done|]. repeat split.
  - intros k. apply filterEmptyCapabilities_no_empty.
  - intros k Hk. rewrite lookup_filterEmptyCapabilities, Hk. simpl.
    by destruct (decide ("" = "")).
  - intros k v Hk Hv. rewrite lookup_filterEmptyCapabilities, Hk.
    assert (E : is_empty_string (Some v) = false).
    { apply is_empty_string_false. congruence. }
    by rewrite E.
  - intros k Hk. by rewrite lookup_filterEmptyCapabilities, Hk.
Qed.

Lemma no_empty_string_values_witness :
  let custom : Capabilities :=
    {[ "appium:app" := VStr ""; "appium:noReset" := VBool true ]} in
  ∃ caps w',
    buildCapabilities android ∅ (Some custom) false
      (sample_world no_selection no_devices) = (Return caps, w')
    ∧ caps !! "appium:app" = None
    ∧ caps !! "appium:noReset" = Some (VBool true)
    ∧ caps !! "appium:deviceName" ≠ Some (VStr "").
Proof.
  simpl. eexists _, _. split; [reflexivity|].
  destruct (no_empty_string_values android ∅
              (Some {[ "appium:app" := VStr ""; "appium:noReset" := VBool true ]})
              false (sample_world no_selection no_devices) _ _ eq_refl)
    as (_ & Hne & Hdrop & Hkeep & _).
  split; [|split].
  - apply Hdrop. apply merged_custom. reflexivity.
  - apply Hkeep; [|discriminate]. apply merged_custom. reflexivity.
  - apply Hne.
Defined.

(** ** The iOS device-selection validator *)

Example ambiguous_message_two_simulators :
  ambiguous_message simulator 2 =
    "Multiple iOS simulators found (2). Please use the select_device tool to choose which device to use before creating a session.".
Proof. reflexivity. Qed.

Example ambiguous_message_twelve_devices :
  ambiguous_message real 12 =
    "Multiple iOS devices found (12). Please use the select_device tool to choose which device to use before creating a session.".
Proof. reflexivity. Qed.

Lemma ambiguous_message_has_count t n :
  ∃ before after, ambiguous_message t n = before +:+ pretty n +:+ after.
Proof.
  destruct t.
  - exists "Multiple iOS simulators found (",
      "). Please use the select_device tool to choose which device to use before creating a session.".
    reflexivity.
  - exists "Multiple iOS devices found (",
      "). Please use the select_device tool to choose which device to use before creating a session.".
    reflexivity.
Qed.

(** C3: with an absent device type the validator returns at once and the
    device manager is not asked; with a device type of which the manager
    lists exactly one device it returns, selected device or not; with one of
    which the manager lists two or more and no device selected it throws an
    error whose message contains the number of devices listed. *)
Theorem validateIOSDeviceSelection_spec w :
  validateIOSDeviceSelection None w = (Return tt, w)
  ∧ count_queries (trace (validateIOSDeviceSelection None w).2) = count_queries (trace w)
  ∧ (∀ t, List.length (iosDevices w t) = 1%nat →
          validateIOSDeviceSelection (Some t) w
          = (Return tt, record (EvGetDevicesByType t) w))
  ∧ (∀ t, (2 ≤ List.length (iosDevices w t))%nat →
          truthy (selectedDeviceUdid (selection w)) = false →
          ∃ before after,
            validateIOSDeviceSelection (Some t) w
            = (Throw (Error (before +:+ pretty (List.length (iosDevices w t)) +:+ after)),
               record (EvGetDevicesByType t) w)).
Proof.
  split; [reflexivity|]. split; [reflexivity|]. split.
  - intros t Hone. rewrite validateIOSDeviceSelection_run.
    unfold ambiguous. by rewrite Hone.
  - intros t Hmany Hnone. rewrite validateIOSDeviceSelection_run.
    unfold ambiguous. rewrite Hnone.
    assert (Hlt : (1 <? List.length (iosDevices w t))%nat = true)
      by (apply Nat.ltb_lt; lia).
    rewrite Hlt. simpl.
    destruct (ambiguous_message_has_count t (List.length (iosDevices w t)))
      as (before & after & ->).
    by exists before, after.
Qed.

Lemma validateIOSDeviceSelection_spec_witness :
  validateIOSDeviceSelection (Some simulator)
    (sample_world no_selection one_simulator)
  = (Return tt, record (EvGetDevicesByType simulator)
                  (sample_world no_selection one_simulator))
  ∧ ∃ before after,
      validateIOSDeviceSelection (Some simulator)
        (sample_world no_selection two_simulators)
      = (Throw (Error (before +:+ "2" +:+ after)),
         record (EvGetDevicesByType simulator)
           (sample_world no_selection two_simulators)).
Proof.
  split.
  - apply (validateIOSDeviceSelection_spec (sample_world no_selection one_simulator)).
    reflexivity.
  - apply (validateIOSDeviceSelection_spec (sample_world no_selection two_simulators)
             ) with (t := simulator); [simpl; lia | reflexivity].
Defined.

(** ** The selected simulator scenario *)

(** C5: for iOS with no config-file and no custom capabilities, a selected
    simulator with identifier [udid] and info [{name: "iPhone 15",
    platform: "17.0"}], and a local target, the build returns a set with the
    device name, platform version and identifier of the selection and the
    three simulator-stability capabilities. *)
Theorem selected_simulator_capabilities (udid : string) customCaps w :
  udid ≠ "" →
  selection w = iphone15_selected udid →
  customCaps = None ∨ customCaps = Some ∅ →
  ∃ caps w',
    buildIOSCapabilities ∅ customCaps false w = (Return caps, w')
    ∧ caps !! "appium:deviceName" = Some (VStr "iPhone 15")
    ∧ caps !! "appium:platformVersion" = Some (VStr "17.0")
    ∧ caps !! "appium:udid" = Some (VStr udid)
    ∧ caps !! "appium:usePrebuiltWDA" = Some (VBool true)
    ∧ caps !! "appium:wdaStartupRetries" = Some (VNum 4)
    ∧ caps !! "appium:wdaStartupRetryInterval" = Some (VNum 20000).
Proof.
  intros Hudid Hsel Hcustom.
  assert (Htruthy : truthy (Some udid) = true).
  { simpl. by destruct (decide (udid = "")). }
  assert (Hnone : ∀ k, customCaps ≫= (.!! k) = None).
  { intros k. destruct Hcustom as [-> | ->]; [done|]. simpl. apply lookup_empty. }
  assert (Hamb : ambiguous simulator w = false).
  { unfold ambiguous. rewrite Hsel.
    cbn [selectedDeviceUdid iphone15_selected]. rewrite Htruthy.
    apply andb_false_r. }
  rewrite buildIOSCapabilities_local. cbv zeta. rewrite Hsel.
  cbn [selectedDeviceType selectedDeviceUdid selectedDeviceInfo iphone15_selected].
  rewrite Hamb. eexists _, _. split; [reflexivity|].
  assert (Hempty : is_empty_string (Some (VStr udid)) = false).
  { apply is_empty_string_false. congruence. }
  unfold ios_merged.
  repeat split; rewrite lookup_filterEmptyCapabilities; layers; rewrite Hnone.
  - rewrite stability_layer_ne, !entry_layer_ne by done.
    rewrite !lookup_insert_ne, lookup_singleton_eq by done. reflexivity.
  - rewrite stability_layer_ne, entry_layer_ne by done. reflexivity.
  - rewrite stability_layer_ne by done. rewrite entry_layer_eq by done.
    cbn [fmap option_fmap option_map]. by rewrite Hempty.
  - reflexivity.
  - reflexivity.
  - reflexivity.
Qed.

Lemma selected_simulator_capabilities_witness :
  ∃ caps w',
    buildIOSCapabilities ∅ None false
      (sample_world (iphone15_selected "A1") two_simulators) = (Return caps, w')
    ∧ caps !! "appium:deviceName" = Some (VStr "iPhone 15")
    ∧ caps !! "appium:platformVersion" = Some (VStr "17.0")
    ∧ caps !! "appium:udid" = Some (VStr "A1")
    ∧ caps !! "appium:usePrebuiltWDA" = Some (VBool true)
    ∧ caps !! "appium:wdaStartupRetries" = Some (VNum 4)
    ∧ caps !! "appium:wdaStartupRetryInterval" = Some (VNum 20000).
Proof.
  apply (selected_simulator_capabilities "A1" None
           (sample_world (iphone15_selected "A1") two_simulators)).
  - discriminate.
  - reflexivity.
  - left. reflexivity.
Defined.

(** ** The effect of a build on the device-selection state *)

Lemma after_clear_selection w :
  selection (after_clear w) = cleared (selection w).
Proof. reflexivity. Qed.

Lemma after_clear_trace w :
  count_clears (trace (after_clear w)) = S (count_clears (trace w)).
Proof.
  unfold after_clear. simpl. rewrite count_clears_record. lia.
Qed.

(** A build with a consumed identifier never meets the validator's error. *)
Lemma consumed_not_ambiguous isRemote w d :
  consumed isRemote (selection w) = true → ambiguous d w = false.
Proof.
  unfold consumed, ambiguous. intros [_ ->]%andb_true_iff. apply andb_false_r.
Qed.

(** C8: a build that consumes a device identifier (local target, identifier
    selected) returns, and calls [clearSelectedDevice] exactly once, after
    which the identifier is cleared; a build that consumes none (remote
    target, or no identifier selected) leaves the device-selection state as
    it found it and never calls [clearSelectedDevice]. *)
Theorem build_clears_consumed_identifier platform configCaps customCaps isRemote w :
  let result := buildCapabilities platform configCaps customCaps isRemote w in
  (consumed isRemote (selection w) = true →
     (∃ caps, result.1 = Return caps)
     ∧ selection result.2 = cleared (selection w)
     ∧ selectedDeviceUdid (selection result.2) = None
     ∧ count_clears (trace result.2) = S (count_clears (trace w)))
  ∧ (consumed isRemote (selection w) = false →
       selection result.2 = selection w
       ∧ count_clears (trace result.2) = count_clears (trace w)).
Proof.
  simpl.
  destruct (buildCapabilities platform configCaps customCaps isRemote w)
    as [[caps|e] w'] eqn:E.
  - apply buildCapabilities_Return in E as [_ ->]. simpl. split; intros Hc; rewrite Hc.
    + split; [by exists caps|].
      rewrite after_clear_selection, after_clear_trace.
      destruct platform, isRemote, (selectedDeviceType (selection w)); simpl;
        rewrite ?count_clears_record; simpl; repeat split; lia.
    + destruct platform, isRemote, (selectedDeviceType (selection w)); simpl;
        rewrite ?count_clears_record; simpl; split; (done || lia).
  - apply buildCapabilities_Throw in E as (d & -> & -> & Ht & Ha & _ & ->).
    simpl. split; intros Hc.
    + by rewrite (consumed_not_ambiguous false w d Hc) in Ha.
    + rewrite count_clears_record. simpl. split; [done | lia].
Qed.

Lemma build_clears_consumed_identifier_witness :
  let w := sample_world (iphone15_selected "A1") two_simulators in
  (selectedDeviceUdid (selection (buildCapabilities ios ∅ None false w).2) = None
   ∧ count_clears (trace (buildCapabilities ios ∅ None false w).2) = 1%nat)
  ∧ selection (buildCapabilities ios ∅ None true w).2 = selection w.
Proof.
  simpl. split.
  - destruct (build_clears_consumed_identifier ios ∅ None false
                (sample_world (iphone15_selected "A1") two_simulators))
      as [Hyes _].
    destruct (Hyes eq_refl) as (_ & _ & Hnone & Hcount).
    split; [exact Hnone | exact Hcount].
  - destruct (build_clears_consumed_identifier ios ∅ None true
                (sample_world (iphone15_selected "A1") two_simulators))
      as [_ Hno].
    destruct (Hno eq_refl) as [Hsel _]. exact Hsel.
Defined.

(** C9: when [buildIOSCapabilities] ends with the ambiguous-selection error
    the device-selection state is as before, the selected identifier
    included, and [clearSelectedDevice] has not been called: the error is
    raised by the validator, before the identifier is read and cleared. *)
Theorem ambiguous_error_leaves_selection configCaps customCaps isRemote w e w' :
  buildIOSCapabilities configCaps customCaps isRemote w = (Throw e, w') →
  (∃ d, selectedDeviceType (selection w) = Some d
        ∧ e = Error (ambiguous_message d (List.length (iosDevices w d))))
  ∧ selection w' = selection w
  ∧ selectedDeviceUdid (selection w') = selectedDeviceUdid (selection w)
  ∧ count_clears (trace w') = count_clears (trace w).
Proof.
  intros E.
  apply (buildCapabilities_Throw ios) in E as (d & _ & _ & Ht & _ & -> & ->).
  split; [by exists d|]. simpl. rewrite count_clears_record. simpl.
  repeat split; lia.
Qed.

Lemma ambiguous_error_leaves_selection_witness :
  let s := mkSelection None (Some simulator) None in
  ∃ e w',
    buildIOSCapabilities ∅ None false (sample_world s two_simulators) = (Throw e, w')
    ∧ selection w' = s
    ∧ count_clears (trace w') = 0%nat.
Proof.
  simpl. eexists _, _. split; [reflexivity|].
  destruct (ambiguous_error_leaves_selection ∅ None false
              (sample_world (mkSelection None (Some simulator) None) two_simulators)
              _ _ eq_refl) as (_ & Hsel & _ & Hcount).
  split; [exact Hsel | exact Hcount].
Defined.

(** ** The earlier copy against the current tool *)

(** C10: the earlier [buildAndroidCapabilities], which has no remote flag,
    returns the same capability set and leaves the same world (selection
    cleared or not, same calls) as the current one called with
    [isRemoteServer = false]. *)
Theorem earlier_android_build_is_local_build configCaps customCaps w :
  Part000.buildAndroidCapabilities configCaps customCaps w
  = buildAndroidCapabilities configCaps customCaps false w.
Proof. reflexivity. Qed.

(** ** Teardown of a prior session *)

(** In the current [execute] a failing teardown is caught on the spot: the
    call goes on with configuration loading, capability building and
    dispatch, exactly as [create_after_teardown] does them. *)
Lemma execute_swallows_teardown_failure args w m :
  is_Some (session w) →
  teardownFailure w = Some m →
  execute args w
  = try_catch (create_after_teardown args) wrap_failure (record EvSafeDeleteSession w).
Proof.
  intros Hs Hm. unfold execute, try_catch, mbind, M_bind, hasActiveSession,
    safeDeleteSession.
  rewrite (bool_decide_eq_true_2 _ Hs), Hm. reflexivity.
Qed.

(** C7 fails in the earlier copy of [execute]: there [safeDeleteSession()]
    is awaited outside any inner [try], so when an active session exists and
    its teardown fails the call ends with "Failed to create session: ..."
    and nothing is loaded, built or dispatched. *)
Theorem earlier_execute_surfaces_teardown_failure args w m :
  is_Some (session w) →
  teardownFailure w = Some m →
  Part000.execute args w
  = (Throw (Error ("Failed to create session: " +:+ m)), record EvSafeDeleteSession w).
Proof.
  intros Hs Hm. unfold Part000.execute, try_catch, mbind, M_bind, hasActiveSession,
    safeDeleteSession.
  rewrite (bool_decide_eq_true_2 _ Hs), Hm. reflexivity.
Qed.

Lemma earlier_execute_surfaces_teardown_failure_witness :
  Part000.execute (mkArgs android None None) failing_teardown_world
  = (Throw (Error "Failed to create session: socket hang up"),
     record EvSafeDeleteSession failing_teardown_world).
Proof.
  apply (earlier_execute_surfaces_teardown_failure (mkArgs android None None)
           failing_teardown_world "socket hang up").
  - by eexists.
  - reflexivity.
Defined.

(** On the same input the current [execute] creates the session. *)
Example execute_after_failed_teardown :
  (execute (mkArgs android None None) failing_teardown_world).1
  = Return (mkResponse android "session-1"
              (Some (VStr "Android")) (Some (VStr "UiAutomator2"))
              (Some (VStr "Android Device"))
              (Some "ui://appium-mcp/session-dashboard/session-1")).
Proof. vm_compute. reflexivity. Qed.

(** ** More on the empty-string filter *)

Lemma lookup_filterEmptyCapabilities_strip (m : Capabilities) k :
  filterEmptyCapabilities m !! k = strip (m !! k).
Proof. apply lookup_filterEmptyCapabilities. Qed.

(** X1: filtering twice is filtering once. *)
Theorem filterEmptyCapabilities_idempotent (m : Capabilities) :
  filterEmptyCapabilities (filterEmptyCapabilities m) = filterEmptyCapabilities m.
Proof.
  apply map_eq. intros k. rewrite !lookup_filterEmptyCapabilities.
  destruct (is_empty_string (m !! k)) eqn:E; [done|]. by rewrite E.
Qed.

(** X2: the filter returns its argument unchanged exactly when no value of the
    argument is the empty string. *)
Theorem filterEmptyCapabilities_fixpoint (m : Capabilities) :
  filterEmptyCapabilities m = m ↔ ∀ k, m !! k ≠ Some (VStr "").
Proof.
  split.
  - intros H k. rewrite <- H. apply filterEmptyCapabilities_no_empty.
  - intros H. apply map_eq. intros k. rewrite lookup_filterEmptyCapabilities.
    specialize (H k). apply is_empty_string_false in H. by rewrite H.
Qed.

(** X3: only the string [''] is removed: [0], [false], [null], empty arrays and
    empty objects are values like any other, and so is a blank string. *)
Theorem filterEmptyCapabilities_keeps_falsy (m : Capabilities) k v :
  m !! k = Some v →
  v = VNum 0 ∨ v = VBool false ∨ v = VNull ∨ v = VArr [] ∨ v = VObj [] ∨ v = VStr " " →
  filterEmptyCapabilities m !! k = Some v.
Proof.
  intros Hk Hv. rewrite lookup_filterEmptyCapabilities, Hk.
  destruct Hv as [->|[->|[->|[->|[->| ->]]]]]; reflexivity.
Qed.

Lemma filterEmptyCapabilities_keeps_falsy_witness :
  filterEmptyCapabilities
    {[ "appium:noReset" := VBool false; "appium:app" := VStr "" ]}
    !! "appium:noReset" = Some (VBool false).
Proof.
  apply filterEmptyCapabilities_keeps_falsy.
  - reflexivity.
  - right. left. reflexivity.
Defined.

(** X4: the filter removes keys and adds none: its result is a sub-map. *)
Theorem filterEmptyCapabilities_subseteq (m : Capabilities) :
  filterEmptyCapabilities m ⊆ m.
Proof.
  apply map_subseteq_spec. intros k v. rewrite lookup_filterEmptyCapabilities.
  by destruct (is_empty_string (m !! k)).
Qed.

(** ** [trim] and blank strings *)

Lemma reverse_string_empty s : reverse_string s = "" ↔ s = "".
Proof.
  unfold reverse_string. split; [|by intros ->].
  destruct s as [|c s]; [done|]. simpl. intros H.
  apply (f_equal list_ascii_of_string) in H.
  rewrite list_ascii_of_string_of_list_ascii in H. simpl in H.
  by destruct (rev (list_ascii_of_string s)).
Qed.

Lemma all_white_space_reverse s :
  all_white_space (reverse_string s) = all_white_space s.
Proof.
  unfold all_white_space, reverse_string.
  rewrite list_ascii_of_string_of_list_ascii.
  generalize (list_ascii_of_string s). intros l.
  induction l as [|c l IH]; [done|]. simpl.
  rewrite forallb_app, IH. simpl. rewrite andb_true_r. apply andb_comm.
Qed.

Lemma trimStart_empty s : trimStart s = "" ↔ all_white_space s = true.
Proof.
  unfold all_white_space. induction s as [|c s IH]; simpl; [done|].
  destruct (is_white_space c); simpl; [exact IH|]. split; discriminate.
Qed.

Lemma trimStart_all_white_space s :
  all_white_space (trimStart s) = all_white_space s.
Proof.
  unfold all_white_space. induction s as [|c s IH]; simpl; [done|].
  destruct (is_white_space c) eqn:E; simpl; [exact IH | by rewrite E].
Qed.

(** [s.trim() === ''] says that [s] is blank. *)
Lemma trim_blank s : trim s = "" ↔ all_white_space s = true.
Proof.
  unfold trim. rewrite reverse_string_empty, trimStart_empty,
    all_white_space_reverse, trimStart_all_white_space. done.
Qed.

Lemma ios_platformVersion_inv (i : option DeviceInfo) p :
  ios_platformVersion i = Some p
  ↔ i ≫= info_platform = Some p ∧ all_white_space p = false.
Proof.
  unfold ios_platformVersion.
  destruct (i ≫= info_platform) as [q|]; [|split; [done | by intros [? _]]].
  destruct (bool_decide (trim q = "")) eqn:E.
  - apply bool_decide_eq_true in E. apply trim_blank in E.
    rewrite andb_false_r. split; [done|]. intros [[= ->] H]. congruence.
  - apply bool_decide_eq_false in E. rewrite trim_blank in E.
    apply not_true_is_false in E.
    assert (Ht : truthy (Some q) = true).
    { simpl. destruct (decide (q = "")) as [->|]; [discriminate E | done]. }
    rewrite Ht. simpl. split.
    + intros [= ->]. done.
    + intros [[= ->] _]. done.
Qed.

Lemma ios_platformVersion_truthy (i : option DeviceInfo) :
  truthy (ios_platformVersion i) = true ∨ ios_platformVersion i = None.
Proof.
  destruct (ios_platformVersion i) as [p|] eqn:E; [left | by right].
  apply ios_platformVersion_inv in E as [_ E]. simpl.
  destruct (decide (p = "")) as [->|]; [discriminate E | done].
Qed.


Example ios_platformVersion_blank :
  ios_platformVersion (Some (mkInfo (Some "iPhone 15") (Some "  "))) = None.
Proof. reflexivity. Qed.

(** ** Loading the configuration *)

Lemma count_events_record kind e t :
  count_events kind (t ++ [e]) = (count_events kind t + (if kind e then 1 else 0))%nat.
Proof.
  unfold count_events. rewrite List.filter_app, List.length_app. simpl.
  by destruct (kind e).
Qed.

Lemma loadCapabilitiesConfig_run w :
  loadCapabilitiesConfig w =
    match config_path_read w with
    | Some path =>
        (Return (match configFile w path with
                 | Return c => c
                 | Throw _ => empty_config
                 end),
         record (EvReadConfig path) w)
    | None => (Return empty_config, w)
    end.
Proof.
  unfold loadCapabilitiesConfig, config_path_read.
  destruct (CAPABILITIES_CONFIG w) as [path|]; [|done].
  destruct (truthy (Some path)); [|done].
  unfold try_catch, readConfigFile. by destruct (configFile w path).
Qed.

(** X6: [loadCapabilitiesConfig] never throws. Without a (non-empty)
    [CAPABILITIES_CONFIG] it gives the empty config and touches no file;
    with one it reads that path once and gives what was parsed, or the empty
    config when access, reading or parsing fails. *)
Theorem loadCapabilitiesConfig_degrades w :
  ∃ c w',
    loadCapabilitiesConfig w = (Return c, w')
    ∧ (truthy (CAPABILITIES_CONFIG w) = false → c = empty_config ∧ w' = w)
    ∧ (∀ path, CAPABILITIES_CONFIG w = Some path → path ≠ "" →
         w' = record (EvReadConfig path) w
         ∧ (∀ parsed, configFile w path = Return parsed → c = parsed)
         ∧ (∀ e, configFile w path = Throw e → c = empty_config)).
Proof.
  rewrite loadCapabilitiesConfig_run. unfold config_path_read.
  destruct (truthy (CAPABILITIES_CONFIG w)) eqn:Ht.
  - destruct (CAPABILITIES_CONFIG w) as [p|] eqn:Hp; [|done].
    eexists _, _. split; [reflexivity|]. split; [done|].
    intros path [= <-] _. split; [done|].
    split; intros ? ->; done.
  - eexists _, _. split; [reflexivity|]. split; [done|].
    intros path Hp Hne. rewrite Hp in Ht. simpl in Ht.
    by destruct (decide (path = "")).
Qed.

Lemma loadCapabilitiesConfig_degrades_witness :
  (loadCapabilitiesConfig (sample_world no_selection no_devices)).1 = Return empty_config
  ∧ (loadCapabilitiesConfig busy_world).1
    = Return (mkConfig ∅ {[ "appium:platformVersion" := VStr "16.4" ]}).
Proof.
  split.
  - destruct (loadCapabilitiesConfig_degrades (sample_world no_selection no_devices))
      as (c & w' & Hrun & Hoff & _).
    rewrite Hrun. simpl. f_equal. apply Hoff. reflexivity.
  - destruct (loadCapabilitiesConfig_degrades busy_world)
      as (c & w' & Hrun & _ & Hon).
    rewrite Hrun. simpl. f_equal.
    destruct (Hon "/etc/caps.json" eq_refl) as (_ & Hparsed & _); [discriminate|].
    apply Hparsed. reflexivity.
Defined.

(** ** More on the validator *)

(** X7: the validator throws exactly when the device manager lists more than
    one device of the type and no identifier is selected; in particular a
    selected identifier lets any number of devices through, and so does an
    empty device list. *)
Theorem validateIOSDeviceSelection_throws_iff t w :
  (∃ e, (validateIOSDeviceSelection (Some t) w).1 = Throw e)
  ↔ (1 < List.length (iosDevices w t))%nat
    ∧ truthy (selectedDeviceUdid (selection w)) = false.
Proof.
  rewrite validateIOSDeviceSelection_run. unfold ambiguous. simpl.
  destruct (1 <? List.length (iosDevices w t))%nat eqn:Hlt.
  - apply Nat.ltb_lt in Hlt.
    destruct (truthy (selectedDeviceUdid (selection w))); simpl.
    + split; [by intros [e ?] | by intros [_ ?]].
    + split; [done | intros _; by eexists].
  - apply Nat.ltb_ge in Hlt. simpl. split; [by intros [e ?] | intros [? _]; lia].
Qed.

(** X8: whatever its outcome, the validator leaves the device selection and the
    session store alone; for a present device type it asks the device
    manager exactly once and calls [clearSelectedDevice] never. *)
Theorem validateIOSDeviceSelection_frame t w :
  let w' := (validateIOSDeviceSelection (Some t) w).2 in
  selection w' = selection w
  ∧ session w' = session w
  ∧ trace w' = (trace w ++ [EvGetDevicesByType t])%list.
Proof. rewrite validateIOSDeviceSelection_run. done. Qed.


(** ** The precedence of the merge, key by key *)

Lemma entry_layer_same (x : option string) (key : string) :
  (if truthy x
   then x ≫= (fun s => ({[ key := VStr s ]} : Capabilities) !! key)
   else None) = if truthy x then VStr <$> x else None.
Proof.
  destruct (truthy x); [|done]. destruct x as [s0|]; [|done].
  simpl. by rewrite lookup_singleton_eq.
Qed.

Section MergedKeys.

Context (platform : Platform) (configCaps : Capabilities)
        (customCaps : option Capabilities) (isRemote : bool) (s : Selection).

Lemma merged_udid :
  merged platform configCaps customCaps isRemote s !! "appium:udid" =
    match customCaps ≫= (.!! "appium:udid") with
    | Some v => Some v
    | None =>
        if consumed isRemote s then VStr <$> selectedDeviceUdid s
        else configCaps !! "appium:udid"
    end.
Proof.
  unfold merged, android_merged, ios_merged, consumed.
  destruct platform; destruct isRemote; layers;
    rewrite ?stability_layer_ne, ?entry_layer_same by done;
    rewrite ?entry_layer_ne by done; simpl;
    rewrite ?lookup_insert_ne, ?lookup_singleton_ne by done;
    destruct (customCaps ≫= lookup "appium:udid"); try done;
    destruct (truthy (selectedDeviceUdid s)) eqn:Ht; simpl;
    try (destruct (selectedDeviceUdid s); [done | discriminate Ht]);
    by destruct (configCaps !! "appium:udid").
Qed.

Lemma merged_platformVersion :
  merged platform configCaps customCaps isRemote s !! "appium:platformVersion" =
    match supplied configCaps customCaps "appium:platformVersion" with
    | Some v => Some v
    | None => VStr <$> detected_version platform isRemote s
    end.
Proof.
  unfold merged, android_merged, ios_merged, supplied, detected_version.
  destruct platform; destruct isRemote; layers;
    rewrite ?stability_layer_ne, ?entry_layer_same by done;
    rewrite ?entry_layer_ne by done; simpl;
    rewrite ?lookup_insert_ne, ?lookup_singleton_ne by done;
    destruct (customCaps ≫= lookup "appium:platformVersion"); try done;
    destruct (configCaps !! "appium:platformVersion"); try done.
  destruct (ios_platformVersion_truthy (selectedDeviceInfo s)) as [Ht | Ht];
    rewrite Ht; [by destruct (ios_platformVersion (selectedDeviceInfo s)) | done].
Qed.

Lemma merged_deviceName :
  merged platform configCaps customCaps isRemote s !! "appium:deviceName" =
    match supplied configCaps customCaps "appium:deviceName" with
    | Some v => Some v
    | None => Some (VStr (default_deviceName platform isRemote s))
    end.
Proof.
  unfold merged, android_merged, ios_merged, supplied, default_deviceName.
  destruct platform; destruct isRemote; layers;
    rewrite ?stability_layer_ne, ?entry_layer_ne by done;
    rewrite !lookup_insert_ne, lookup_singleton_eq by done;
    destruct (customCaps ≫= lookup "appium:deviceName"); try done;
    by destruct (configCaps !! "appium:deviceName").
Qed.

Lemma merged_stability k :
  k ∈ stability_keys →
  merged platform configCaps customCaps isRemote s !! k =
    match customCaps ≫= (.!! k) with
    | Some v => Some v
    | None =>
        if simulator_selected platform isRemote s
        then simulator_stability_caps !! k
        else configCaps !! k
    end.
Proof.
  intros Hk.
  assert (Hsome : is_Some (simulator_stability_caps !! k)).
  { unfold stability_keys in Hk. rewrite !elem_of_cons in Hk.
    destruct Hk as [->|[->|[->|Hnil]]]; [by eexists..|by apply elem_of_nil in Hnil]. }
  assert (Hne : k ≠ "platformName" ∧ k ≠ "appium:automationName"
                ∧ k ≠ "appium:deviceName" ∧ k ≠ "appium:platformVersion"
                ∧ k ≠ "appium:udid").
  { unfold stability_keys in Hk. rewrite !elem_of_cons in Hk.
    destruct Hk as [->|[->|[->|Hnil]]]; [done..|by apply elem_of_nil in Hnil]. }
  destruct Hne as (H1 & H2 & H3 & H4 & H5). destruct Hsome as [sv Hsv].
  unfold merged, android_merged, ios_merged, simulator_selected.
  destruct platform; destruct isRemote; layers;
    rewrite ?entry_layer_ne by done; simpl;
    rewrite ?lookup_insert_ne, ?lookup_singleton_ne by done;
    destruct (customCaps ≫= lookup k); try done;
    try (by destruct (configCaps !! k)).
  destruct (bool_decide (selectedDeviceType s = Some simulator)).
  - by rewrite Hsv.
  - by destruct (configCaps !! k).
Qed.

Lemma merged_other k :
  k ∉ builder_keys →
  merged platform configCaps customCaps isRemote s !! k =
    supplied configCaps customCaps k.
Proof.
  intros Hk. unfold builder_keys in Hk. rewrite !not_elem_of_cons in Hk.
  destruct Hk as (H1 & H2 & H3 & H4 & H5 & H6 & H7 & H8 & _).
  unfold merged, android_merged, ios_merged, supplied.
  destruct platform; destruct isRemote; layers;
    rewrite ?stability_layer_ne, ?entry_layer_ne by done; simpl;
    rewrite ?lookup_insert_ne, ?lookup_singleton_ne by done;
    destruct (customCaps ≫= lookup k); try done;
    by destruct (configCaps !! k).
Qed.

End MergedKeys.

Section BuildKeys.

Context (platform : Platform) (configCaps : Capabilities)
        (customCaps : option Capabilities) (isRemote : bool)
        (w w' : World) (caps : Capabilities).
Context (Hbuild : buildCapabilities platform configCaps customCaps isRemote w
                  = (Return caps, w')).

(** X10: the device identifier of a returned set: the custom capabilities'
    value if they have one; else the selected identifier when the build
    consumes it, even over an [appium:udid] of the config file; else the
    config file's value. An empty string at the winning step removes the
    key. *)
Theorem build_udid_precedence :
  caps !! "appium:udid" =
    strip (match customCaps ≫= (.!! "appium:udid") with
           | Some v => Some v
           | None =>
               if consumed isRemote (selection w)
               then VStr <$> selectedDeviceUdid (selection w)
               else configCaps !! "appium:udid"
           end).
Proof.
  apply buildCapabilities_Return in Hbuild as [-> _].
  by rewrite lookup_filterEmptyCapabilities_strip, merged_udid.
Qed.

(** X11: the platform version of a returned set: what the custom capabilities,
    else the config file, supply; the version detected from the selected
    device is only a fallback for when neither has the key. *)
Theorem build_platformVersion_precedence :
  caps !! "appium:platformVersion" =
    strip (match supplied configCaps customCaps "appium:platformVersion" with
           | Some v => Some v
           | None => VStr <$> detected_version platform isRemote (selection w)
           end).
Proof.
  apply buildCapabilities_Return in Hbuild as [-> _].
  by rewrite lookup_filterEmptyCapabilities_strip, merged_platformVersion.
Qed.


(** X13: a simulator-stability key of a returned set: the custom capabilities'
    value if they have one; else the fixed value when a local iOS build
    finds the simulator type selected, even over a value of the config
    file; else the config file's value. *)
Theorem build_stability_precedence k :
  k ∈ stability_keys →
  caps !! k =
    strip (match customCaps ≫= (.!! k) with
           | Some v => Some v
           | None =>
               if simulator_selected platform isRemote (selection w)
               then simulator_stability_caps !! k
               else configCaps !! k
           end).
Proof.
  intros Hk. apply buildCapabilities_Return in Hbuild as [-> _].
  by rewrite lookup_filterEmptyCapabilities_strip, merged_stability.
Qed.

(** X14: every key that no step of the merge writes by itself passes through:
    it has the custom capabilities' value, else the config file's, unless
    that value is the empty string; a key neither of them has is absent. *)
Theorem build_passes_other_keys k :
  k ∉ builder_keys →
  caps !! k = strip (supplied configCaps customCaps k).
Proof.
  intros Hk. apply buildCapabilities_Return in Hbuild as [-> _].
  by rewrite lookup_filterEmptyCapabilities_strip, merged_other.
Qed.

End BuildKeys.

(** Running a build on a closed input: name what it returns. *)
Ltac run_build E :=
  match goal with
  | |- ∃ caps w', ?b = _ ∧ _ =>
      let caps := fresh "caps" in
      let w' := fresh "w'" in
      let e := fresh "e" in
      destruct b as [[caps|e] w'] eqn:E;
      [ exists caps, w'; split; [reflexivity|]
      | exfalso;
        let d := fresh "d" in
        let Hd := fresh "Hd" in
        let Ha := fresh "Ha" in
        apply buildCapabilities_Throw in E as (d & _ & _ & Hd & Ha & _);
        simpl in Hd; injection Hd as <-; vm_compute in Ha; discriminate Ha ]
  end.

Lemma build_udid_precedence_witness :
  ∃ caps w',
    buildCapabilities ios pinned_config None false
      (sample_world (iphone15_selected "A1") two_simulators) = (Return caps, w')
    ∧ caps !! "appium:udid" = Some (VStr "A1").
Proof.
  run_build E.
  rewrite (build_udid_precedence ios pinned_config None false
             (sample_world (iphone15_selected "A1") two_simulators) _ _ E).
  vm_compute. reflexivity.
Defined.

Lemma build_platformVersion_precedence_witness :
  ∃ caps w',
    buildCapabilities ios pinned_config None false
      (sample_world (iphone15_selected "A1") two_simulators) = (Return caps, w')
    ∧ caps !! "appium:platformVersion" = Some (VStr "16.4").
Proof.
  run_build E.
  rewrite (build_platformVersion_precedence ios pinned_config None false
             (sample_world (iphone15_selected "A1") two_simulators) _ _ E).
  vm_compute. reflexivity.
Defined.


Lemma build_stability_precedence_witness :
  ∃ caps w',
    buildCapabilities ios pinned_config None false
      (sample_world (iphone15_selected "A1") two_simulators) = (Return caps, w')
    ∧ caps !! "appium:wdaStartupRetries" = Some (VNum 4).
Proof.
  run_build E.
  rewrite (build_stability_precedence ios pinned_config None false
             (sample_world (iphone15_selected "A1") two_simulators) _ _ E);
    [vm_compute; reflexivity|].
  unfold stability_keys. rewrite !elem_of_cons. tauto.
Defined.

Lemma build_passes_other_keys_witness :
  ∃ caps w',
    buildCapabilities ios pinned_config None false
      (sample_world (iphone15_selected "A1") two_simulators) = (Return caps, w')
    ∧ caps !! "appium:newCommandTimeout" = Some (VNum 120)
    ∧ caps !! "appium:app" = None.
Proof.
  run_build E. split.
  - rewrite (build_passes_other_keys ios pinned_config None false
               (sample_world (iphone15_selected "A1") two_simulators) _ _ E);
      [vm_compute; reflexivity|].
    unfold builder_keys. rewrite !not_elem_of_cons.
    repeat split; try (intros [=]). apply not_elem_of_nil.
  - rewrite (build_passes_other_keys ios pinned_config None false
               (sample_world (iphone15_selected "A1") two_simulators) _ _ E);
      [vm_compute; reflexivity|].
    unfold builder_keys. rewrite !not_elem_of_cons.
    repeat split; try (intros [=]). apply not_elem_of_nil.
Defined.

(** ** The builders as a whole *)

Lemma buildCapabilities_run platform configCaps customCaps isRemote w :
  buildCapabilities platform configCaps customCaps isRemote w =
    match blocked platform isRemote w with
    | Some d =>
        (Throw (Error (ambiguous_message d (List.length (iosDevices w d)))),
         record (EvGetDevicesByType d) w)
    | None =>
        (Return (filterEmptyCapabilities
                   (merged platform configCaps customCaps isRemote (selection w))),
         after_build platform isRemote w)
    end.
Proof.
  unfold buildCapabilities, blocked, after_build, validated_type, merged, consumed.
  destruct platform.
  - rewrite buildAndroidCapabilities_run. by destruct isRemote.
  - destruct isRemote.
    + by rewrite buildIOSCapabilities_remote.
    + rewrite buildIOSCapabilities_local. simpl.
      destruct (selectedDeviceType (selection w)) as [d|]; [|done].
      by destruct (ambiguous d w).
Qed.

(** X9: [buildAndroidCapabilities] never throws and never asks the device
    manager, whatever is selected and however many devices there are. *)
Theorem buildAndroidCapabilities_always_returns configCaps customCaps isRemote w :
  ∃ caps w',
    buildAndroidCapabilities configCaps customCaps isRemote w = (Return caps, w')
    ∧ count_events is_device_query (trace w') = count_events is_device_query (trace w).
Proof.
  rewrite buildAndroidCapabilities_run. eexists _, _. split; [reflexivity|].
  simpl. destruct (truthy _); [|done].
  unfold after_clear. simpl. rewrite count_events_record. simpl. lia.
Qed.

Lemma Part000_buildIOSCapabilities_run configCaps customCaps w :
  Part000.buildIOSCapabilities configCaps customCaps w =
    match blocked ios false w with
    | Some d =>
        (Throw (Error (ambiguous_message d (List.length (iosDevices w d)))),
         record (EvGetDevicesByType d) w)
    | None =>
        (Return (filterEmptyCapabilities
                   (merged ios configCaps customCaps false (forget_name (selection w)))),
         after_build ios false w)
    end.
Proof.
  unfold Part000.buildIOSCapabilities, blocked, after_build, validated_type,
    merged, ios_merged, consumed, when_truthy, ambiguous,
    validateIOSDeviceSelection, mbind, M_bind, getSelectedDeviceType,
    getDevicesByType, getSelectedDevice, getSelectedDeviceInfo.
  simpl.
  destruct (selectedDeviceType (selection w)) as [d|]; simpl.
  - destruct (1 <? List.length (iosDevices w d))%nat; simpl.
    + destruct (truthy (selectedDeviceUdid (selection w))) eqn:E;
        simpl; rewrite ?E; reflexivity.
    + destruct (truthy (selectedDeviceUdid (selection w))) eqn:E;
        simpl; rewrite ?E; reflexivity.
  - destruct (truthy (selectedDeviceUdid (selection w))) eqn:E;
      simpl; rewrite ?E; reflexivity.
Qed.

Lemma merged_forget_name configCaps customCaps s k :
  k ≠ "appium:deviceName" →
  merged ios configCaps customCaps false (forget_name s) !! k =
    merged ios configCaps customCaps false s !! k.
Proof.
  intros Hk. unfold merged, ios_merged, forget_name. simpl. layers.
  change (ios_platformVersion
            (Some {| info_name := None;
                     info_platform := selectedDeviceInfo s ≫= info_platform |}))
    with (ios_platformVersion (selectedDeviceInfo s)).
  destruct (decide (k = "platformName")) as [->|H1].
  { by rewrite !lookup_insert_eq. }
  destruct (decide (k = "appium:automationName")) as [->|H2].
  { by rewrite !(lookup_insert_ne _ "platformName"), !lookup_insert_eq by done. }
  by rewrite !lookup_insert_ne, !lookup_singleton_ne by done.
Qed.

Lemma merged_forget_name_nameless configCaps customCaps s :
  truthy (selectedDeviceInfo s ≫= info_name) = false →
  merged ios configCaps customCaps false (forget_name s)
  = merged ios configCaps customCaps false s.
Proof.
  intros Hname. apply map_eq. intros k.
  destruct (decide (k = "appium:deviceName")) as [->|Hk].
  - rewrite !merged_deviceName. unfold default_deviceName, ios_deviceName.
    cbn [forget_name selectedDeviceInfo mbind option_bind info_name].
    rewrite Hname. reflexivity.
  - rewrite merged_forget_name by exact Hk. reflexivity.
Qed.

(** X15: the earlier [buildIOSCapabilities] against the current one on a local
    target: they leave the same world and throw the same error in the same
    cases; the sets they return agree on every key but [appium:deviceName],
    for which the earlier one knows only "iPhone Simulator"; and they agree
    altogether when the selected device has no (non-empty) name. *)
Theorem earlier_ios_build_differs_in_deviceName configCaps customCaps w :
  let earlier := Part000.buildIOSCapabilities configCaps customCaps w in
  let current := buildIOSCapabilities configCaps customCaps false w in
  earlier.2 = current.2
  ∧ (∀ e, earlier.1 = Throw e ↔ current.1 = Throw e)
  ∧ (∀ a b, earlier.1 = Return a → current.1 = Return b →
            (∀ k, k ≠ "appium:deviceName" → a !! k = b !! k)
            ∧ a !! "appium:deviceName"
              = strip (match supplied configCaps customCaps "appium:deviceName" with
                       | Some v => Some v
                       | None => Some (VStr "iPhone Simulator")
                       end))
  ∧ (truthy (selectedDeviceInfo (selection w) ≫= info_name) = false →
     earlier = current).
Proof.
  cbv zeta. rewrite Part000_buildIOSCapabilities_run.
  change (buildIOSCapabilities configCaps customCaps false w)
    with (buildCapabilities ios configCaps customCaps false w).
  rewrite buildCapabilities_run.
  destruct (blocked ios false w) as [d|]; cbn [fst snd].
  - split; [reflexivity|]. split; [tauto|]. split; [intros a b [=]|].
    intros _. reflexivity.
  - split; [reflexivity|]. split; [intros e; split; intros [=]|]. split.
    + intros a b Ha Hb.
      assert (a = filterEmptyCapabilities
                    (merged ios configCaps customCaps false (forget_name (selection w))))
        as -> by congruence.
      assert (b = filterEmptyCapabilities
                    (merged ios configCaps customCaps false (selection w)))
        as -> by congruence.
      clear Ha Hb. split.
      * intros k Hk. rewrite !lookup_filterEmptyCapabilities.
        rewrite merged_forget_name by exact Hk. reflexivity.
      * rewrite lookup_filterEmptyCapabilities_strip, merged_deviceName.
        reflexivity.
    + intros Hname. rewrite merged_forget_name_nameless by exact Hname.
      reflexivity.
Qed.

Lemma earlier_ios_build_differs_in_deviceName_witness :
  let w := sample_world (mkSelection (Some "A1") (Some real)
                           (Some (mkInfo None (Some "17.0")))) no_devices in
  Part000.buildIOSCapabilities ∅ None w = buildIOSCapabilities ∅ None false w.
Proof.
  simpl.
  apply (earlier_ios_build_differs_in_deviceName ∅ None
           (sample_world (mkSelection (Some "A1") (Some real)
                            (Some (mkInfo None (Some "17.0")))) no_devices)).
  reflexivity.
Defined.

(** ** The entry point, stage by stage *)

Lemma execute_run args w :
  execute args w =
    match create_after_teardown args (after_teardown w) with
    | (Return r, w') => (Return r, w')
    | (Throw e, w') =>
        (Throw (Error ("Failed to create session: " +:+ error_message e)), w')
    end.
Proof.
  unfold execute, try_catch, mbind, M_bind, hasActiveSession, after_teardown,
    safeDeleteSession, wrap_failure, throw.
  destruct (session w) as [sid|] eqn:Hs.
  - rewrite (bool_decide_eq_true_2 _ (mk_is_Some _ _ eq_refl)).
    destruct (teardownFailure w); reflexivity.
  - rewrite (bool_decide_eq_false_2 (is_Some None)); [reflexivity|].
    by intros [? ?].
Qed.

Lemma loadCapabilitiesConfig_loaded w :
  loadCapabilitiesConfig w = (Return (loaded_config w), after_load w).
Proof.
  rewrite loadCapabilitiesConfig_run. unfold loaded_config, after_load.
  by destruct (config_path_read w).
Qed.

Lemma driver_platform_created platform :
  driver_platform (createDriverForPlatform platform) = platform.
Proof. by destruct platform. Qed.

Lemma create_after_teardown_run args w :
  create_after_teardown args w =
    let platform := arg_platform args in
    let isRemote := truthy (arg_remoteServerUrl args) in
    let w1 := after_load w in
    match blocked platform isRemote w1 with
    | Some d =>
        (Throw (Error (ambiguous_message d (List.length (iosDevices w1 d)))),
         record (EvGetDevicesByType d) w1)
    | None =>
        let caps :=
          filterEmptyCapabilities
            (merged platform (platform_caps platform (loaded_config w))
               (arg_capabilities args) isRemote (selection w1)) in
        let w2 := after_build platform isRemote w1 in
        let w3 := record (dispatch_event args caps) w2 in
        match dispatch_answer args caps w2 with
        | Throw e => (Throw e, w3)
        | Return sessionId =>
            (Return (response_for platform sessionId caps),
             record (EvSetSession sessionId) (with_session (Some sessionId) w3))
        end
    end.
Proof.
  unfold create_after_teardown. cbv zeta.
  unfold mbind at 1. unfold M_bind at 1.
  rewrite loadCapabilitiesConfig_loaded.
  unfold mbind at 1. unfold M_bind at 1.
  rewrite buildCapabilities_run.
  destruct (blocked (arg_platform args) (truthy (arg_remoteServerUrl args))
              (after_load w)) as [d|]; [reflexivity|].
  unfold dispatch_answer, dispatch_event, response_for, mbind, M_bind,
    newSession, createDriverSession, setSession, mret, M_ret, ret.
  rewrite driver_platform_created.
  destruct (arg_remoteServerUrl args) as [url|].
  - destruct (truthy (Some url)).
    + destruct (webDriverNewSession _ url _); reflexivity.
    + destruct (driverCreateSession _ _ _); reflexivity.
  - destruct (driverCreateSession _ _ _); reflexivity.
Qed.

(** The stages change the trace and, for the teardown, the session store;
    nothing else of the world. *)
Lemma after_teardown_frame w :
  selection (after_teardown w) = selection w
  ∧ iosDevices (after_teardown w) = iosDevices w
  ∧ CAPABILITIES_CONFIG (after_teardown w) = CAPABILITIES_CONFIG w
  ∧ configFile (after_teardown w) = configFile w
  ∧ driverCreateSession (after_teardown w) = driverCreateSession w
  ∧ webDriverNewSession (after_teardown w) = webDriverNewSession w
  ∧ session (after_teardown w) = session_after_teardown w
  ∧ trace (after_teardown w) = (trace w ++ teardown_events w)%list.
Proof.
  unfold after_teardown, session_after_teardown, teardown_events.
  destruct (session w) as [sid|] eqn:Hs; [destruct (teardownFailure w)|];
    simpl; rewrite ?Hs, ?app_nil_r; done.
Qed.

Lemma after_load_frame w :
  selection (after_load w) = selection w
  ∧ iosDevices (after_load w) = iosDevices w
  ∧ driverCreateSession (after_load w) = driverCreateSession w
  ∧ webDriverNewSession (after_load w) = webDriverNewSession w
  ∧ session (after_load w) = session w
  ∧ trace (after_load w) = (trace w ++ load_events w)%list.
Proof.
  unfold after_load, load_events.
  destruct (config_path_read w); simpl; rewrite ?app_nil_r; done.
Qed.

Lemma after_build_frame platform isRemote w :
  selection (after_build platform isRemote w)
  = (if consumed isRemote (selection w) then cleared (selection w) else selection w)
  ∧ driverCreateSession (after_build platform isRemote w) = driverCreateSession w
  ∧ webDriverNewSession (after_build platform isRemote w) = webDriverNewSession w
  ∧ session (after_build platform isRemote w) = session w
  ∧ trace (after_build platform isRemote w)
    = (trace w ++ build_events platform isRemote w)%list.
Proof.
  unfold after_build, build_events, after_clear.
  destruct (validated_type platform isRemote w);
    destruct (consumed isRemote (selection w)); simpl;
    rewrite <- ?app_assoc, ?app_nil_r; done.
Qed.

Lemma loaded_config_after_teardown w :
  loaded_config (after_teardown w) = loaded_config w
  ∧ load_events (after_teardown w) = load_events w.
Proof.
  destruct (after_teardown_frame w) as (_ & _ & Hc & Hf & _).
  unfold loaded_config, load_events, config_path_read. by rewrite Hc, Hf.
Qed.

Lemma blocked_frame platform isRemote w1 w2 :
  selection w1 = selection w2 → iosDevices w1 = iosDevices w2 →
  blocked platform isRemote w1 = blocked platform isRemote w2
  ∧ validated_type platform isRemote w1 = validated_type platform isRemote w2
  ∧ build_events platform isRemote w1 = build_events platform isRemote w2.
Proof.
  intros Hs Hd. unfold blocked, build_events, validated_type, ambiguous.
  by rewrite Hs, Hd.
Qed.

Lemma dispatch_answer_frame args caps w1 w2 :
  driverCreateSession w1 = driverCreateSession w2 →
  webDriverNewSession w1 = webDriverNewSession w2 →
  dispatch_answer args caps w1 = dispatch_answer args caps w2.
Proof. intros H1 H2. unfold dispatch_answer. by rewrite H1, H2. Qed.

(** The world in which the build of a call runs. *)
Lemma build_world_frame w :
  let w1 := after_load (after_teardown w) in
  selection w1 = selection w ∧ iosDevices w1 = iosDevices w
  ∧ driverCreateSession w1 = driverCreateSession w
  ∧ webDriverNewSession w1 = webDriverNewSession w
  ∧ session w1 = session_after_teardown w
  ∧ trace w1 = (trace w ++ teardown_events w ++ load_events w)%list.
Proof.
  simpl.
  destruct (after_teardown_frame w) as (Hs & Hd & _ & _ & Hl & Hr & Hse & Ht).
  destruct (after_load_frame (after_teardown w)) as (Hs' & Hd' & Hl' & Hr' & Hse' & Ht').
  destruct (loaded_config_after_teardown w) as [_ Hle].
  rewrite Hs', Hd', Hl', Hr', Hse', Ht', Hs, Hd, Hl, Hr, Hse, Ht, Hle.
  by rewrite <- app_assoc.
Qed.

(** The whole of [execute], result and world, in terms of the world it
    starts in. *)
Lemma execute_full args w :
  let platform := arg_platform args in
  let isRemote := truthy (arg_remoteServerUrl args) in
  let caps := final_capabilities args w in
  let w1 := after_load (after_teardown w) in
  execute args w =
    match blocked platform isRemote w with
    | Some d =>
        (Throw (Error ("Failed to create session: "
                       +:+ ambiguous_message d (List.length (iosDevices w d)))),
         record (EvGetDevicesByType d) w1)
    | None =>
        let w3 := record (dispatch_event args caps) (after_build platform isRemote w1) in
        match dispatch_answer args caps w with
        | Throw e =>
            (Throw (Error ("Failed to create session: " +:+ error_message e)), w3)
        | Return sessionId =>
            (Return (response_for platform sessionId caps),
             record (EvSetSession sessionId) (with_session (Some sessionId) w3))
        end
    end.
Proof.
  cbv zeta. rewrite execute_run, create_after_teardown_run. cbv zeta.
  destruct (build_world_frame w) as (Hs & Hd & Hl & Hr & _ & _). cbv zeta in *.
  destruct (blocked_frame (arg_platform args) (truthy (arg_remoteServerUrl args))
              _ _ Hs Hd) as (Hb & _ & _).
  rewrite Hb, Hs, Hd.
  destruct (loaded_config_after_teardown w) as [-> _].
  destruct (blocked (arg_platform args) (truthy (arg_remoteServerUrl args)) w)
    as [d|]; [reflexivity|].
  destruct (after_build_frame (arg_platform args) (truthy (arg_remoteServerUrl args))
              (after_load (after_teardown w))) as (_ & Hl2 & Hr2 & _).
  rewrite (dispatch_answer_frame args _ _ w) by congruence.
  unfold final_capabilities.
  destruct (dispatch_answer args _ w); reflexivity.
Qed.

(** ** What a call of the entry point does *)


Lemma execute_full_trace args w :
  trace (execute args w).2 = (trace w ++ call_events args w)%list.
Proof.
  rewrite execute_full. cbv zeta. unfold call_events.
  destruct (build_world_frame w) as (Hs & Hd & _ & _ & _ & Ht). cbv zeta in *.
  destruct (blocked_frame (arg_platform args) (truthy (arg_remoteServerUrl args))
              _ _ Hs Hd) as (_ & _ & Hbe).
  destruct (after_build_frame (arg_platform args) (truthy (arg_remoteServerUrl args))
              (after_load (after_teardown w))) as (_ & _ & _ & _ & Htb).
  destruct (blocked _ _ w) as [d|].
  - cbn [snd trace record]. rewrite Ht, <- !app_assoc. reflexivity.
  - destruct (dispatch_answer args _ w) as [sid|e];
      cbn [snd trace record with_session]; rewrite Htb, Ht, Hbe, <- !app_assoc;
      reflexivity.
Qed.


Lemma count_events_app kind (t1 t2 : list Event) :
  count_events kind (t1 ++ t2) = (count_events kind t1 + count_events kind t2)%nat.
Proof. unfold count_events. by rewrite List.filter_app, List.length_app. Qed.

(** X18: a call that fails registers nothing: [setSession] is not called, and the
    store holds what the teardown step left, which is no session at all when
    a prior session was torn down. *)
Theorem failed_execute_registers_nothing args w e w' :
  execute args w = (Throw e, w') →
  (∃ m, e = Error ("Failed to create session: " +:+ m))
  ∧ session w' = session_after_teardown w
  ∧ count_events is_registration (trace w') = count_events is_registration (trace w).
Proof.
  intros Hrun.
  assert (Htr : trace w' = (trace w ++ call_events args w)%list).
  { rewrite <- execute_full_trace. by rewrite Hrun. }
  rewrite Htr, count_events_app. clear Htr.
  rewrite execute_full in Hrun. cbv zeta in Hrun. unfold call_events.
  destruct (build_world_frame w) as (_ & _ & _ & _ & Hse & _). cbv zeta in Hse.
  destruct (after_build_frame (arg_platform args) (truthy (arg_remoteServerUrl args))
              (after_load (after_teardown w))) as (_ & _ & _ & Hsb & _).
  assert (Hpre : ∀ t, count_events is_registration
                       (teardown_events w ++ load_events w ++ t)
                     = count_events is_registration t).
  { intros t. rewrite !count_events_app. unfold teardown_events, load_events.
    destruct (session w), (config_path_read w); reflexivity. }
  rewrite Hpre.
  destruct (blocked _ _ w) as [d|].
  - injection Hrun as <- <-. split; [by eexists|]. split; [exact Hse|].
    cbn. lia.
  - destruct (dispatch_answer args _ w) as [sid|e0]; [discriminate Hrun|].
    injection Hrun as <- <-. split; [by eexists|]. split.
    + cbn [session record]. by rewrite Hsb.
    + rewrite !count_events_app. unfold build_events.
      destruct (validated_type _ _ w), (consumed _ (selection w));
        unfold dispatch_event;
        destruct (arg_remoteServerUrl args) as [url|];
        try destruct (truthy (Some url)); cbn; lia.
Qed.

Lemma failed_execute_registers_nothing_witness :
  ∃ e w',
    execute (mkArgs ios None None) failing_driver_world = (Throw e, w')
    ∧ e = Error "Failed to create session: ECONNREFUSED"
    ∧ session w' = None
    ∧ count_events is_registration (trace w') = 0%nat.
Proof.
  destruct (execute (mkArgs ios None None) failing_driver_world)
    as [[r|e] w'] eqn:E.
  - exfalso. rewrite execute_full in E. vm_compute in E. discriminate E.
  - exists e, w'. split; [reflexivity|].
    destruct (failed_execute_registers_nothing _ _ _ _ E) as (_ & Hs & Hc).
    split; [|split; [exact Hs | exact Hc]].
    rewrite execute_full in E. vm_compute in E. injection E as <- _. reflexivity.
Defined.




Lemma execute_full_selection args w :
  selection (execute args w).2 =
    match blocked (arg_platform args) (truthy (arg_remoteServerUrl args)) w with
    | Some _ => selection w
    | None =>
        if consumed (truthy (arg_remoteServerUrl args)) (selection w)
        then cleared (selection w) else selection w
    end.
Proof.
  rewrite execute_full. cbv zeta.
  destruct (build_world_frame w) as (Hs & _). cbv zeta in Hs.
  destruct (after_build_frame (arg_platform args) (truthy (arg_remoteServerUrl args))
              (after_load (after_teardown w))) as (Hsb & _).
  destruct (blocked _ _ w) as [d|].
  - cbn [snd selection record]. exact Hs.
  - destruct (dispatch_answer args _ w);
      cbn [snd selection record with_session]; rewrite Hsb, Hs; reflexivity.
Qed.

(** X21: a call for a remote server leaves the local device state alone,
    whatever it is and however the call ends: the selection is unchanged,
    the device manager is not asked and [clearSelectedDevice] is not
    called. *)
Theorem remote_execute_leaves_device_state args w :
  truthy (arg_remoteServerUrl args) = true →
  selection (execute args w).2 = selection w
  ∧ trace (execute args w).2 = (trace w ++ call_events args w)%list
  ∧ count_events is_device_query (call_events args w) = 0%nat
  ∧ count_events is_clear (call_events args w) = 0%nat.
Proof.
  intros Hr. split; [|split; [apply execute_full_trace|]].
  - rewrite execute_full_selection, Hr. unfold consumed, blocked, validated_type.
    by destruct (arg_platform args).
  - unfold call_events, blocked, build_events, validated_type, consumed,
      teardown_events, load_events, dispatch_event.
    rewrite Hr. rewrite !count_events_app.
    destruct (arg_remoteServerUrl args) as [url|]; [|discriminate Hr].
    rewrite Hr.
    destruct (arg_platform args), (session w), (config_path_read w),
      (dispatch_answer _ _ w); by cbn.
Qed.

Lemma remote_execute_leaves_device_state_witness :
  selection (execute (mkArgs ios None (Some "http://localhost:4723")) busy_world).2
  = selection busy_world.
Proof.
  apply (remote_execute_leaves_device_state
           (mkArgs ios None (Some "http://localhost:4723")) busy_world).
  reflexivity.
Defined.



(** X23: [safeDeleteSession] is called exactly when a session is active, once,
    and before anything else the call does. *)
Theorem execute_tears_down_first args w :
  ∃ t,
    trace (execute args w).2
    = (trace w ++ (if bool_decide (is_Some (session w))
                   then [EvSafeDeleteSession] else []) ++ t)%list
    ∧ count_events is_teardown t = 0%nat.
Proof.
  rewrite execute_full_trace. unfold call_events. cbv zeta.
  match goal with
  | |- context [(teardown_events w ++ ?rest)%list] => exists rest
  end.
  split.
  - unfold teardown_events. destruct (session w); reflexivity.
  - unfold load_events, build_events, dispatch_event. rewrite !count_events_app.
    destruct (config_path_read w), (blocked _ _ w);
      try reflexivity; rewrite !count_events_app;
      destruct (validated_type _ _ w), (consumed _ (selection w)),
        (dispatch_answer _ _ w), (arg_remoteServerUrl args) as [url|];
      try destruct (truthy (Some url)); reflexivity.
Qed.

(** ** The earlier entry point against the current one *)





